(** * ptwalk: a GDB command walking the x86-64 page tables

    Shallow embedding of [pagetablewalk.py] (class [PageTableWalk]) and the
    properties of its address decoding, its four-level walk, its argument
    parsing and its handling of QEMU's physical memory mode.

    Python integers are unbounded, so every integer of the script is a [Z];
    [&], [>>] and [<<] are [Z.land], [Z.shiftr] and [Z.shiftl], which agree
    with Python on negative numbers too (two's complement, infinitely
    sign-extended). *)

From Stdlib Require Import ZArith List String Ascii Bool Lia.
From Stdlib.Strings Require Import Byte.
From Stdlib.Strings Require HexString.
Import ListNotations.
Local Open Scope Z_scope.

(** ** Python's [int(text, 0)]

    The script parses its argument with [int(args[0], 0)].  For a [str] this
    is CPython's [PyLong_FromUnicodeObject]: the text is first brought to
    ASCII, every Unicode white space becoming a space and every Unicode
    decimal digit the ASCII digit of its value
    ([_PyUnicode_TransformDecimalAndSpaceToASCII]); then [PyLong_FromString]
    parses the result in base 0, and the whole of it must have been consumed.
    [None] stands for the [ValueError] that the builtin raises.

    A text is a Python [str] in its UTF-8 encoding, one [ascii] per byte, as
    in a string of a Rocq source file: a code point below 128 is one byte
    below 128, every other code point a sequence of two to four bytes from
    128 up. *)

(** The character database of the interpreter, which depends on its version,
    as the transformation consults it for the code points from 127 up:
    - [Py_UNICODE_ISSPACE]: whether the code point is white space;
    - [Py_UNICODE_TODECIMAL]: the value of a decimal digit, and -1 for a code
      point that is not a decimal digit. *)
Class UnicodeData := {
  Py_UNICODE_ISSPACE : N -> bool;
  Py_UNICODE_TODECIMAL : N -> Z
}.

Module PyInt.

(** [Py_ISSPACE]: space, and the control characters tab to carriage return. *)
Definition Py_ISSPACE (c : ascii) : bool :=
  let n := nat_of_ascii c in
  (Nat.eqb n 32 || (Nat.leb 9 n && Nat.leb n 13))%bool.

(** [_PyLong_DigitValue]: the value of a digit or letter, 37 for the rest. *)
Definition PyLong_DigitValue (c : ascii) : Z :=
  let n := Z.of_nat (nat_of_ascii c) in
  if ((48 <=? n) && (n <=? 57))%bool then n - 48
  else if ((97 <=? n) && (n <=? 122))%bool then n - 87
  else if ((65 <=? n) && (n <=? 90))%bool then n - 55
  else 37.

Definition is_underscore (c : ascii) : bool := Ascii.eqb c "_".

Definition is_one_of (c a b : ascii) : bool :=
  (Ascii.eqb c a || Ascii.eqb c b)%bool.

(** Skips the white space at the front. *)
Fixpoint skip_spaces (s : string) : string :=
  match s with
  | String c r => if Py_ISSPACE c then skip_spaces r else s
  | EmptyString => s
  end.

(** The optional sign. *)
Definition split_sign (s : string) : Z * string :=
  match s with
  | String c r =>
      if Ascii.eqb c "+" then (1, r)
      else if Ascii.eqb c "-" then (-1, r)
      else (1, s)
  | EmptyString => (1, s)
  end.

(** Base 0: the base is taken from the prefix.  A leading zero without a
    prefix (the old octal notation) selects base 10 and is accepted only if
    the number is zero: the second component is [error_if_nonzero]. *)
Definition detect_base (s : string) : Z * bool :=
  match s with
  | String c0 r =>
      if Ascii.eqb c0 "0" then
        match r with
        | String c _ =>
            if is_one_of c "x" "X" then (16, false)
            else if is_one_of c "o" "O" then (8, false)
            else if is_one_of c "b" "B" then (2, false)
            else (10, true)
        | EmptyString => (10, true)
        end
      else (10, false)
  | EmptyString => (10, false)
  end.

(** Skips the two characters of the prefix, and one underscore after it. *)
Definition strip_prefix (base : Z) (s : string) : string :=
  if base =? 10 then s
  else
    match s with
    | String _ (String _ r) =>
        match r with
        | String c r' => if is_underscore c then r' else r
        | EmptyString => r
        end
    | _ => s
    end.

(** The digit loop of [long_from_string_base]: digits below [base], with
    single underscores between them.  [prev] tells whether the character just
    consumed was an underscore; [acc] is the value and [digits] the number of
    digits read so far.  The result is [None] for two underscores in a row or
    an underscore at the end of the run, else the value, the number of digits
    and the text left. *)
Fixpoint scan_digits (base : Z) (prev : bool) (acc : Z) (digits : nat)
    (s : string) : option (Z * nat * string) :=
  match s with
  | String c r =>
      if is_underscore c then
        if prev then None else scan_digits base true acc digits r
      else if PyLong_DigitValue c <? base then
        scan_digits base false (acc * base + PyLong_DigitValue c) (S digits) r
      else if prev then None else Some (acc, digits, s)
  | EmptyString => if prev then None else Some (acc, digits, s)
  end.

(** [_PY_LONG_MAX_STR_DIGITS_THRESHOLD] *)
Definition MAX_STR_DIGITS_THRESHOLD : nat := 640.

(** The limit on the length of a decimal text ([sys.get_int_max_str_digits()],
    where 0, and an interpreter without the limit, mean none): it applies to
    the bases that are not a power of two, here base 10. *)
Definition too_many_digits (max_str_digits : nat) (base : Z) (digits : nat) : bool :=
  ((base =? 10) && Nat.ltb MAX_STR_DIGITS_THRESHOLD digits
   && Nat.ltb 0 max_str_digits && Nat.ltb max_str_digits digits)%bool.

Definition starts_with_underscore (s : string) : bool :=
  match s with
  | String c _ => is_underscore c
  | EmptyString => false
  end.

(** The digits of a number in base [base] and the checks on them: the text
    may not start with an underscore, the loop must not fail, a decimal text
    must not be too long, a number written with a leading zero must be zero,
    there must be a digit, and only white space may follow. *)
Definition convert_digits (max_str_digits : nat) (base : Z)
    (error_if_nonzero : bool) (s : string) : option Z :=
  if starts_with_underscore s then None
  else
    match scan_digits base false 0 0 s with
    | None => None
    | Some (z, digits, rest) =>
        if too_many_digits max_str_digits base digits then None
        else if (error_if_nonzero && negb (z =? 0))%bool then None
        else if Nat.eqb digits 0 then None
        else
          match skip_spaces rest with
          | EmptyString => Some z
          | _ => None
          end
    end.

(** The number after the sign: [None] for a text that is not a number. *)
Definition unsigned (max_str_digits : nat) (s : string) : option Z :=
  let '(base, error_if_nonzero) := detect_base s in
  convert_digits max_str_digits base error_if_nonzero (strip_prefix base s).

(** [PyLong_FromString] in base 0, with the check of its caller that the
    whole text was consumed. *)
Definition PyLong_FromString (max_str_digits : nat) (s : string) : option Z :=
  let '(sign, s) := split_sign (skip_spaces s) in
  match unsigned max_str_digits s with
  | Some z => Some (sign * z)
  | None => None
  end.

(** [PyUnicode_IS_ASCII]: every code point is below 128. *)
Fixpoint PyUnicode_IS_ASCII (text : string) : bool :=
  match text with
  | String c r => ((N_of_ascii c <? 128)%N && PyUnicode_IS_ASCII r)%bool
  | EmptyString => true
  end.

(** The six bits of a byte that continues a code point. *)
Definition continuation (c : ascii) : option N :=
  let b := N_of_ascii c in
  if ((128 <=? b) && (b <? 192))%N%bool then Some (b - 128)%N else None.

(** The code point of two, three and four bytes.  [None]: the bytes are not
    the UTF-8 encoding of a code point of a [str] (a byte does not continue,
    the code point has a shorter encoding, is a surrogate or lies beyond
    U+10FFFF). *)
Definition code_point2 (b0 : N) (c1 : ascii) : option N :=
  match continuation c1 with
  | Some b1 =>
      let ch := ((b0 - 192) * 64 + b1)%N in
      if (128 <=? ch)%N then Some ch else None
  | None => None
  end.

Definition code_point3 (b0 : N) (c1 c2 : ascii) : option N :=
  match continuation c1, continuation c2 with
  | Some b1, Some b2 =>
      let ch := (((b0 - 224) * 64 + b1) * 64 + b2)%N in
      if ((2048 <=? ch)%N && negb ((0xD800 <=? ch) && (ch <=? 0xDFFF))%N)%bool
      then Some ch else None
  | _, _ => None
  end.

Definition code_point4 (b0 : N) (c1 c2 c3 : ascii) : option N :=
  match continuation c1, continuation c2, continuation c3 with
  | Some b1, Some b2, Some b3 =>
      let ch := ((((b0 - 240) * 64 + b1) * 64 + b2) * 64 + b3)%N in
      if ((0x10000 <=? ch) && (ch <=? 0x10FFFF))%N%bool then Some ch else None
  | _, _, _ => None
  end.

Section Unicode.

Context {ucd : UnicodeData}.

(** One round of the loop of [_PyUnicode_TransformDecimalAndSpaceToASCII],
    for the code point [ch]; [rest] is what the loop makes of the text after
    it.  A code point that is neither ASCII, white space nor a decimal digit
    becomes a question mark, and the text ends there. *)
Definition transform_char (ch : N) (rest : string) : string :=
  if (ch <? 127)%N then String (ascii_of_N ch) rest
  else if Py_UNICODE_ISSPACE ch then String " " rest
  else
    let decimal := Py_UNICODE_TODECIMAL ch in
    if decimal <? 0 then "?"
    else String (ascii_of_N (Z.to_N (48 + decimal))) rest.

Definition transform_next (ch : option N) (rest : string) : string :=
  match ch with
  | Some ch => transform_char ch rest
  | None => "?"
  end.

(** The loop, over the code points of the text.  Bytes that are not UTF-8,
    which the text of no [str] has, end the result like a code point that
    cannot be converted. *)
Fixpoint transform (text : string) : string :=
  match text with
  | EmptyString => EmptyString
  | String c0 r0 =>
      let b0 := N_of_ascii c0 in
      if (b0 <? 128)%N then transform_char b0 (transform r0)
      else if (b0 <? 192)%N then "?"
      else if (b0 <? 224)%N then
        match r0 with
        | String c1 r1 => transform_next (code_point2 b0 c1) (transform r1)
        | _ => "?"
        end
      else if (b0 <? 240)%N then
        match r0 with
        | String c1 (String c2 r2) =>
            transform_next (code_point3 b0 c1 c2) (transform r2)
        | _ => "?"
        end
      else
        match r0 with
        | String c1 (String c2 (String c3 r3)) =>
            transform_next (code_point4 b0 c1 c2 c3) (transform r3)
        | _ => "?"
        end
  end.

(** [_PyUnicode_TransformDecimalAndSpaceToASCII]: an ASCII text is returned
    as it is. *)
Definition PyUnicode_TransformDecimalAndSpaceToASCII (text : string) : string :=
  if PyUnicode_IS_ASCII text then text else transform text.

(** [int(text, 0)]: [PyLong_FromUnicodeObject(text, 0)] *)
Definition int0 (max_str_digits : nat) (text : string) : option Z :=
  PyLong_FromString max_str_digits (PyUnicode_TransformDecimalAndSpaceToASCII text).

End Unicode.

End PyInt.

(** ** The texts that denote an integer

    The forms of an integer literal in ASCII, as a grammar: white space, an
    optional sign, the number, white space.  The number is
    decimal, or hexadecimal, octal or binary after the prefix 0x, 0o or 0b;
    its digits may be separated by single underscores, and one underscore may
    follow the prefix.  A decimal number starts with a digit other than 0,
    unless all its digits are 0. *)
Module Literal.

Inductive form := Decimal | Hexadecimal | Octal | Binary.

Definition between (lo hi c : ascii) : bool :=
  (Ascii.leb lo c && Ascii.leb c hi)%bool.

Definition is_digit (f : form) (c : ascii) : bool :=
  match f with
  | Decimal => between "0" "9" c
  | Hexadecimal => (between "0" "9" c || between "a" "f" c || between "A" "F" c)%bool
  | Octal => between "0" "7" c
  | Binary => between "0" "1" c
  end.

Definition is_prefix (f : form) (c : ascii) : bool :=
  match f with
  | Decimal => false
  | Hexadecimal => (Ascii.eqb c "x" || Ascii.eqb c "X")%bool
  | Octal => (Ascii.eqb c "o" || Ascii.eqb c "O")%bool
  | Binary => (Ascii.eqb c "b" || Ascii.eqb c "B")%bool
  end.

Definition is_zero (c : ascii) : bool := Ascii.eqb c "0".

Definition is_space (c : ascii) : bool :=
  (Ascii.eqb c " " || between "009" "013" c)%bool.

(** What may follow a digit: nothing, a digit, or an underscore and a digit. *)
Inductive digits_tail (digit : ascii -> bool) : string -> Prop :=
| tail_end : digits_tail digit EmptyString
| tail_digit c t :
    digit c = true -> digits_tail digit t -> digits_tail digit (String c t)
| tail_underscore c t :
    digit c = true -> digits_tail digit t ->
    digits_tail digit (String "_" (String c t)).

Inductive digits (digit : ascii -> bool) : string -> Prop :=
| digits_intro c t :
    digit c = true -> digits_tail digit t -> digits digit (String c t).

Inductive number : form -> string -> Prop :=
| number_decimal c t :
    is_digit Decimal c = true -> c <> "0"%char ->
    digits_tail (is_digit Decimal) t ->
    number Decimal (String c t)
| number_zero s :
    digits is_zero s -> number Decimal s
| number_prefix f p s :
    is_prefix f p = true -> digits (is_digit f) s ->
    number f (String "0" (String p s))
| number_prefix_underscore f p s :
    is_prefix f p = true -> digits (is_digit f) s ->
    number f (String "0" (String p (String "_" s))).

Fixpoint all_spaces (s : string) : bool :=
  match s with
  | String c r => (is_space c && all_spaces r)%bool
  | EmptyString => true
  end.

Inductive sign : string -> Prop :=
| sign_none : sign EmptyString
| sign_plus : sign "+"
| sign_minus : sign "-".

Inductive literal (f : form) : string -> Prop :=
| literal_intro pre sg body post :
    all_spaces pre = true -> sign sg -> number f body -> all_spaces post = true ->
    literal f (pre ++ sg ++ body ++ post).

Definition base_of (f : form) : Z :=
  match f with Decimal => 10 | Hexadecimal => 16 | Octal => 8 | Binary => 2 end.

(** The value of a run of digits in base [base], continuing from [acc]. *)
Fixpoint value (base acc : Z) (s : string) : Z :=
  match s with
  | String c r =>
      if PyInt.is_underscore c then value base acc r
      else value base (acc * base + PyInt.PyLong_DigitValue c) r
  | EmptyString => acc
  end.

(** The number of characters other than underscores. *)
Fixpoint count (s : string) : nat :=
  match s with
  | String c r => if PyInt.is_underscore c then count r else S (count r)
  | EmptyString => O
  end.

(** The number of decimal digits of a text. *)
Fixpoint decimal_digits (s : string) : nat :=
  match s with
  | String c r => if is_digit Decimal c then S (decimal_digits r) else decimal_digits r
  | EmptyString => O
  end.

(** A decimal text of more digits than the interpreter converts. *)
Definition exceeds (max_str_digits : nat) (f : form) (text : string) : Prop :=
  f = Decimal
  /\ (PyInt.MAX_STR_DIGITS_THRESHOLD < decimal_digits text)%nat
  /\ (0 < max_str_digits < decimal_digits text)%nat.

(** The loop stops at [rest]: at the end of the text or at a character that
    is neither an underscore nor a digit of the base. *)
Definition stops (base : Z) (rest : string) : Prop :=
  match rest with
  | String c _ => PyInt.is_underscore c = false /\ (PyInt.PyLong_DigitValue c <? base) = false
  | EmptyString => True
  end.

End Literal.

(** ** Paging indices (lines 53-58) *)

Definition pml4_index (vaddr : Z) : Z := Z.land (Z.shiftr vaddr 39) 0x1FF.
Definition pdpt_index (vaddr : Z) : Z := Z.land (Z.shiftr vaddr 30) 0x1FF.
Definition pd_index (vaddr : Z) : Z := Z.land (Z.shiftr vaddr 21) 0x1FF.
Definition pt_index (vaddr : Z) : Z := Z.land (Z.shiftr vaddr 12) 0x1FF.
Definition page_offset (vaddr : Z) : Z := Z.land vaddr 0xFFF.

(** Entry size for each page table entry is 8 bytes. *)
Definition entry_size : Z := 8.

(** ** Table bases, entry addresses and physical addresses (lines 83-148) *)

Definition pml4_base (cr3_val : Z) : Z := Z.land cr3_val 0xFFFFFFFFF000.
Definition pml4_entry_addr (cr3_val vaddr : Z) : Z :=
  pml4_base cr3_val + pml4_index vaddr * entry_size.

Definition pdpt_base (pml4_entry : Z) : Z := Z.land pml4_entry 0xFFFFFFFFF000.
Definition pdpt_entry_addr (pml4_entry vaddr : Z) : Z :=
  pdpt_base pml4_entry + pdpt_index vaddr * entry_size.

Definition pd_base (pdpt_entry : Z) : Z := Z.land pdpt_entry 0xFFFFFFFFF000.
Definition pd_entry_addr (pdpt_entry vaddr : Z) : Z :=
  pd_base pdpt_entry + pd_index vaddr * entry_size.

Definition pt_base (pd_entry : Z) : Z := Z.land pd_entry 0xFFFFFFFFF000.
Definition pt_entry_addr (pd_entry vaddr : Z) : Z :=
  pt_base pd_entry + pt_index vaddr * entry_size.

(** [if not (entry & 0x1)] and [if entry & (1 << 7)] *)
Definition not_present (entry : Z) : bool := Z.land entry 0x1 =? 0.
Definition huge_bit (entry : Z) : bool := negb (Z.land entry (Z.shiftl 1 7) =? 0).

Definition phys_addr_1gb (pdpt_entry vaddr : Z) : Z :=
  Z.land pdpt_entry 0xFFFFFC0000000 + Z.land vaddr 0x3FFFFFFF.
Definition phys_addr_2mb (pd_entry vaddr : Z) : Z :=
  Z.land pd_entry 0xFFFFFFE00000 + Z.land vaddr 0x1FFFFF.
Definition page_base (pt_entry : Z) : Z := Z.land pt_entry 0xFFFFFFFFF000.
Definition phys_addr_4kb (pt_entry vaddr : Z) : Z :=
  page_base pt_entry + page_offset vaddr.

(** [int.from_bytes(mem.tobytes(), byteorder="little")] *)
Fixpoint int_from_bytes_little (mem : list byte) : Z :=
  match mem with
  | [] => 0
  | b :: rest => Z.of_N (Byte.to_N b) + 256 * int_from_bytes_little rest
  end.

(** ** What the command does to its environment *)

(** The four tables, which also label the lines the command prints. *)
Inductive level := PML4 | PDPT | PD | PT.

(** The message of a Python exception of class [Exception] ([gdb.error],
    [gdb.MemoryError], [ValueError], ...). *)
Definition exn := string.

(** The lines the command prints, one constructor per [print] of the script,
    carrying the numbers that the script formats with [hex]. *)
Inductive line :=
| Usage                                  (* Usage: ptwalk <virtual address> *)
| InvalidAddress                         (* Invalid address. Please enter ... *)
| ErrorReadingCR3 (e : exn)              (* Error reading CR3 register: e *)
| CR3Is (cr3_val : Z)                    (* CR3 = ... *)
| VirtualAddressIs (vaddr : Z)           (* Virtual Address = ... *)
| IndexIs (l : level) (index : Z)        (* PML4 index = ..., PDPT index = ... *)
| PageOffsetIs (offset : Z)              (* Page offset = ... *)
| FailedToRead (address : Z) (e : exn)   (* Failed to read memory at ...: e *)
| EntryAt (l : level) (entry_addr entry : Z)   (* PML4 Entry @ ... = ... *)
| EntryNotPresent (l : level)            (* PML4 entry not present! *)
| PageDetected1GB                        (* 1GB Page detected. *)
| PageDetected2MB                        (* 2MB Page detected. *)
| PhysicalAddressIs (phys_addr : Z).     (* Physical Address = ... *)

(** Every call to GDB and every printed line, in the order they happen. *)
Inductive event :=
| EvExecute (command : string)           (* gdb.execute(command) *)
| EvParseAndEval (expression : string)   (* gdb.parse_and_eval(expression) *)
| EvReadMemory (address length : Z)      (* inferior.read_memory(address, length) *)
| EvPrint (l : line).

(** A call returns a value or raises.  [Raise e] is an exception of class
    [Exception], the ones that the handlers of the script, all of the form
    [except Exception], catch.  [Interrupt] is [KeyboardInterrupt], which GDB
    raises from its calls when the user quits or interrupts: it is not an
    [Exception], and no handler of the script catches it.  The calls of
    [print] and of [gdb.string_to_argv] are taken to return. *)
Inductive result (A : Type) :=
| Ok (a : A)
| Raise (e : exn)
| Interrupt.
Arguments Ok {A} a.
Arguments Raise {A} e.
Arguments Interrupt {A}.

(** The host of the script: GDB's Python API, acting on a debugging session
    of type [World] (the target machine, the remote connection).  Each call
    may change the session, and may raise or be interrupted; what it answers
    may depend on everything that happened before.
    - [gdb_execute]: [gdb.execute(command)];
    - [gdb_string_to_argv]: [gdb.string_to_argv(arg)];
    - [gdb_parse_and_eval_int]: [int(gdb.parse_and_eval(expression))];
    - [inferior_read_memory]: [gdb.selected_inferior().read_memory(address, length)],
      followed by [tobytes()];
    - [sys_int_max_str_digits]: the interpreter's limit on decimal texts;
    - [unicode_data]: the interpreter's character database. *)
Class Gdb (World : Type) := {
  gdb_execute : string -> World -> result unit * World;
  gdb_string_to_argv : string -> list string;
  gdb_parse_and_eval_int : string -> World -> result Z * World;
  inferior_read_memory : Z -> Z -> World -> result (list byte) * World;
  sys_int_max_str_digits : nat;
  unicode_data :: UnicodeData
}.

Section Effects.

Context {World : Type} {gdb : Gdb World}.

(** A piece of the script: from a session to its outcome, the session after
    it and the events it caused. *)
Definition M (A : Type) : Type := World -> result A * World * list event.

Definition ret {A} (a : A) : M A := fun w => (Ok a, w, []).

Definition bind {A B} (m : M A) (f : A -> M B) : M B :=
  fun w =>
    match m w with
    | (Ok a, w1, evs1) =>
        let '(r, w2, evs2) := f a w1 in (r, w2, evs1 ++ evs2)
    | (Raise e, w1, evs1) => (Raise e, w1, evs1)
    | (Interrupt, w1, evs1) => (Interrupt, w1, evs1)
    end.

(** [try: body  except Exception as e: handler]: an exception of class
    [Exception] raised in the body is handled; an interrupt is not. *)
Definition try_except {A} (body : M A) (handler : exn -> M A) : M A :=
  fun w =>
    match body w with
    | (Ok a, w1, evs1) => (Ok a, w1, evs1)
    | (Raise e, w1, evs1) =>
        let '(r, w2, evs2) := handler e w1 in (r, w2, evs1 ++ evs2)
    | (Interrupt, w1, evs1) => (Interrupt, w1, evs1)
    end.

Definition print (l : line) : M unit := fun w => (Ok tt, w, [EvPrint l]).

Definition execute (command : string) : M unit :=
  fun w => let '(r, w1) := gdb_execute command w in (r, w1, [EvExecute command]).

Definition parse_and_eval_int (expression : string) : M Z :=
  fun w =>
    let '(r, w1) := gdb_parse_and_eval_int expression w in
    (r, w1, [EvParseAndEval expression]).

Definition read_memory (address length : Z) : M (list byte) :=
  fun w =>
    let '(r, w1) := inferior_read_memory address length w in
    (r, w1, [EvReadMemory address length]).

End Effects.

Declare Scope py_scope.
Delimit Scope py_scope with py.
Notation "x <- m ;; k" := (bind m (fun x => k))
  (at level 61, m at next level, right associativity) : py_scope.
Notation "m ;; k" := (bind m (fun _ => k))
  (at level 61, right associativity) : py_scope.
(** [x = read_entry(...)], then [if x is None: return] *)
Notation "x <-? m ;; k" :=
  (bind m (fun o => match o with Some x => k | None => ret tt end))
  (at level 61, m at next level, right associativity) : py_scope.

Section Command.

Context {World : Type} {gdb : Gdb World}.
Local Open Scope py_scope.
Local Open Scope string_scope.

(** Reads an 8-byte entry from memory at the given physical address
    (lines 72-81); [None] is Python's [None]. *)
Definition read_entry (address : Z) : M (option Z) :=
  try_except
    (mem <- read_memory address entry_size ;;
     ret (Some (int_from_bytes_little mem)))
    (fun e => print (FailedToRead address e) ;; ret None).

(** [PageTableWalk.ptwalk] (lines 27-149) *)
Definition ptwalk (arg : string) : M unit :=
  match gdb_string_to_argv arg with
  | [a] =>
      match PyInt.int0 sys_int_max_str_digits a with
      | None => print InvalidAddress
      | Some vaddr =>
          (* Read the CR3 register via GDB. *)
          cr3_val <-?
            try_except
              (cr3_val <- parse_and_eval_int "$cr3" ;; ret (Some cr3_val))
              (fun e => print (ErrorReadingCR3 e) ;; ret None) ;;
          print (CR3Is cr3_val) ;;
          print (VirtualAddressIs vaddr) ;;
          print (IndexIs PML4 (pml4_index vaddr)) ;;
          print (IndexIs PDPT (pdpt_index vaddr)) ;;
          print (IndexIs PD (pd_index vaddr)) ;;
          print (IndexIs PT (pt_index vaddr)) ;;
          print (PageOffsetIs (page_offset vaddr)) ;;
          (* Read PML4 entry. *)
          pml4_entry <-? read_entry (pml4_entry_addr cr3_val vaddr) ;;
          print (EntryAt PML4 (pml4_entry_addr cr3_val vaddr) pml4_entry) ;;
          if not_present pml4_entry then print (EntryNotPresent PML4)
          else
          pdpt_entry <-? read_entry (pdpt_entry_addr pml4_entry vaddr) ;;
          print (EntryAt PDPT (pdpt_entry_addr pml4_entry vaddr) pdpt_entry) ;;
          if not_present pdpt_entry then print (EntryNotPresent PDPT)
          else
          (* Check for a 1GB huge page (bit 7 set). *)
          if huge_bit pdpt_entry then
            print PageDetected1GB ;;
            print (PhysicalAddressIs (phys_addr_1gb pdpt_entry vaddr))
          else
          (* Continue with the Page Directory (PD). *)
          pd_entry <-? read_entry (pd_entry_addr pdpt_entry vaddr) ;;
          print (EntryAt PD (pd_entry_addr pdpt_entry vaddr) pd_entry) ;;
          if not_present pd_entry then print (EntryNotPresent PD)
          else
          (* Check for a 2MB huge page. *)
          if huge_bit pd_entry then
            print PageDetected2MB ;;
            print (PhysicalAddressIs (phys_addr_2mb pd_entry vaddr))
          else
          (* Finally, read the Page Table (PT) entry. *)
          pt_entry <-? read_entry (pt_entry_addr pd_entry vaddr) ;;
          print (EntryAt PT (pt_entry_addr pd_entry vaddr) pt_entry) ;;
          if not_present pt_entry then print (EntryNotPresent PT)
          else
          print (PhysicalAddressIs (phys_addr_4kb pt_entry vaddr))
      end
  | _ => print Usage
  end.

(** [PageTableWalk.invoke] (lines 18-25) *)
Definition invoke (arg : string) : M unit :=
  (* enable physical memory mode *)
  execute "maintenance packet Qqemu.PhyMemMode:1" ;;
  ptwalk arg ;;
  (* revert physical memory mode *)
  execute "maintenance packet Qqemu.PhyMemMode:0".

End Command.

(** ** Reading the events of a run *)

(** The records of the walk: the [Entry @] lines, one per entry that was read. *)
Fixpoint trace (evs : list event) : list (level * Z * Z) :=
  match evs with
  | EvPrint (EntryAt l entry_addr entry) :: rest => (l, entry_addr, entry) :: trace rest
  | _ :: rest => trace rest
  | [] => []
  end.

(** The addresses of the memory reads, in order. *)
Fixpoint memory_reads (evs : list event) : list Z :=
  match evs with
  | EvReadMemory address _ :: rest => address :: memory_reads rest
  | _ :: rest => memory_reads rest
  | [] => []
  end.

(** The registers that were read, in order. *)
Fixpoint register_reads (evs : list event) : list string :=
  match evs with
  | EvParseAndEval expression :: rest => expression :: register_reads rest
  | _ :: rest => register_reads rest
  | [] => []
  end.

(** The indices and the offset that were printed. *)
Fixpoint indices (evs : list event) : list Z :=
  match evs with
  | EvPrint (IndexIs _ index) :: rest => index :: indices rest
  | EvPrint (PageOffsetIs offset) :: rest => offset :: indices rest
  | _ :: rest => indices rest
  | [] => []
  end.

Definition is_execute (ev : event) : bool :=
  match ev with EvExecute _ => true | _ => false end.

(** The line that echoes the argument. *)
Definition is_echo (ev : event) : bool :=
  match ev with EvPrint (VirtualAddressIs _) => true | _ => false end.

Inductive page_size := Page4KB | Page2MB | Page1GB.

(** How a run ended, as its lines tell: a physical address, of a huge page
    when the line before it announced one and of a 4 KiB page otherwise, or
    the first complaint. *)
Inductive outcome :=
| Translated (phys_addr : Z) (size : page_size)
| AbsentAt (l : level)
| ReadFailedAt (address : Z)
| RegisterUnavailable
| InvalidAddressGiven
| InvalidArgumentCount.

Fixpoint outcome_from (size : page_size) (evs : list event) : option outcome :=
  match evs with
  | EvPrint l :: rest =>
      match l with
      | PageDetected1GB => outcome_from Page1GB rest
      | PageDetected2MB => outcome_from Page2MB rest
      | PhysicalAddressIs phys_addr => Some (Translated phys_addr size)
      | EntryNotPresent l => Some (AbsentAt l)
      | FailedToRead address _ => Some (ReadFailedAt address)
      | ErrorReadingCR3 _ => Some RegisterUnavailable
      | InvalidAddress => Some InvalidAddressGiven
      | Usage => Some InvalidArgumentCount
      | _ => outcome_from size rest
      end
  | _ :: rest => outcome_from size rest
  | [] => None
  end.

Definition outcome_of (evs : list event) : option outcome := outcome_from Page4KB evs.

(** The position of a table in the walk, from 1. *)
Definition depth (l : level) : nat :=
  match l with PML4 => 1 | PDPT => 2 | PD => 3 | PT => 4 end.

(** The events up to the first memory read: the register read and the lines
    that echo the register, the address and its fields. *)
Definition preamble (vaddr cr3_val : Z) : list event :=
  [ EvParseAndEval "$cr3"; EvPrint (CR3Is cr3_val);
    EvPrint (VirtualAddressIs vaddr);
    EvPrint (IndexIs PML4 (pml4_index vaddr));
    EvPrint (IndexIs PDPT (pdpt_index vaddr));
    EvPrint (IndexIs PD (pd_index vaddr));
    EvPrint (IndexIs PT (pt_index vaddr));
    EvPrint (PageOffsetIs (page_offset vaddr)) ].

(** The events of a table whose entry is read successfully. *)
Definition visit (l : level) (address entry : Z) : list event :=
  [ EvReadMemory address entry_size; EvPrint (EntryAt l address entry) ].

(** The events of the tables whose entries were read, in order. *)
Definition visits (records : list (level * Z * Z)) : list event :=
  flat_map (fun '(l, address, entry) => visit l address entry) records.

(** The tables from the PML4 down to [l]. *)
Definition levels_upto (l : level) : list level :=
  match l with
  | PML4 => [PML4]
  | PDPT => [PML4; PDPT]
  | PD => [PML4; PDPT; PD]
  | PT => [PML4; PDPT; PD; PT]
  end.

(** The events but for the line that echoes the argument. *)
Definition without_echo (evs : list event) : list event :=
  filter (fun ev => negb (is_echo ev)) evs.

(** The memory reads with their lengths, in order. *)
Fixpoint read_calls (evs : list event) : list (Z * Z) :=
  match evs with
  | EvReadMemory address length :: rest => (address, length) :: read_calls rest
  | _ :: rest => read_calls rest
  | [] => []
  end.




(** The four tables in the order of the walk. *)
Definition all_levels : list level := [PML4; PDPT; PD; PT].

(** The number of bytes of a page. *)
Definition page_bytes (size : page_size) : Z :=
  match size with
  | Page4KB => 2 ^ 12
  | Page2MB => 2 ^ 21
  | Page1GB => 2 ^ 30
  end.

(** The entry of a record has bit 0 set, and bit 7 clear when the record is
    one of the PDPT or of the PD: the walk goes on below such an entry. *)
Definition leads_on (record : level * Z * Z) : Prop :=
  let '(l, _, entry) := record in
  Z.testbit entry 0 = true
  /\ match l with
     | PDPT | PD => Z.testbit entry 7 = false
     | PML4 | PT => True
     end.

(** Python's [hex]: the digits in lower case after [0x], after [-0x] for a
    negative number. *)
Definition hex (n : Z) : string := HexString.of_Z n.

(** A text of hexadecimal digits only. *)
Fixpoint all_hex_digits (s : string) : bool :=
  match s with
  | String c r => (Literal.is_digit Literal.Hexadecimal c && all_hex_digits r)%bool
  | EmptyString => true
  end.

(** ** Behaviours of the session during a walk *)

Section Scenario.

Context {World : Type} {gdb : Gdb World}.
Local Open Scope string_scope.

(** In session [w] the command line [arg] is one word, which [int] parses to
    [vaddr], and the register read answers [cr3_val] and leaves session [w']. *)
Definition begins (arg : string) (w : World) (vaddr cr3_val : Z) (w' : World) : Prop :=
  exists a,
    gdb_string_to_argv arg = [a]
    /\ PyInt.int0 sys_int_max_str_digits a = Some vaddr
    /\ gdb_parse_and_eval_int "$cr3" w = (Ok cr3_val, w').

(** In session [w] the read of 8 bytes at [address] succeeds with the bytes
    of [entry] and leaves session [w']. *)
Definition reads_entry (w : World) (address entry : Z) (w' : World) : Prop :=
  exists mem,
    inferior_read_memory address entry_size w = (Ok mem, w')
    /\ int_from_bytes_little mem = entry.

(** [arrives vaddr cr3_val w1 l address w records]: from session [w1], after
    the register read, every table before [l] gave an entry that was read
    successfully, present and, at the PDPT and the PD, without bit 7; the walk
    is about to read the entry of table [l] at [address] in session [w], and
    [records] lists the entries seen so far. *)
Inductive arrives (vaddr cr3_val : Z) (w1 : World) :
    level -> Z -> World -> list (level * Z * Z) -> Prop :=
| arrives_PML4 :
    arrives vaddr cr3_val w1 PML4 (pml4_entry_addr cr3_val vaddr) w1 []
| arrives_PDPT address w records entry w' :
    arrives vaddr cr3_val w1 PML4 address w records ->
    reads_entry w address entry w' ->
    Z.testbit entry 0 = true ->
    arrives vaddr cr3_val w1 PDPT (pdpt_entry_addr entry vaddr) w'
      (records ++ [(PML4, address, entry)])
| arrives_PD address w records entry w' :
    arrives vaddr cr3_val w1 PDPT address w records ->
    reads_entry w address entry w' ->
    Z.testbit entry 0 = true -> Z.testbit entry 7 = false ->
    arrives vaddr cr3_val w1 PD (pd_entry_addr entry vaddr) w'
      (records ++ [(PDPT, address, entry)])
| arrives_PT address w records entry w' :
    arrives vaddr cr3_val w1 PD address w records ->
    reads_entry w address entry w' ->
    Z.testbit entry 0 = true -> Z.testbit entry 7 = false ->
    arrives vaddr cr3_val w1 PT (pt_entry_addr entry vaddr) w'
      (records ++ [(PD, address, entry)]).


(** Two pieces of script that, from every session, give the same result and
    the same session, with the same events but for the echo of the argument. *)
Definition alike {A} (m1 m2 : M A) : Prop :=
  forall w : World,
    fst (m1 w) = fst (m2 w) /\ without_echo (snd (m1 w)) = without_echo (snd (m2 w)).

End Scenario.


(** ** A machine to run the command on

    A session whose register and memory are fixed tables.  The session state
    counts the calls made so far; memory holds 8-byte little-endian entries
    at the listed addresses and nothing elsewhere. *)
Module Machine.

Record machine := {
  cr3 : option Z;
  memory : list (Z * Z);
  packets_accepted : bool
}.

Fixpoint lookup (address : Z) (mem : list (Z * Z)) : option Z :=
  match mem with
  | (a, v) :: rest => if a =? address then Some v else lookup address rest
  | [] => None
  end.

Definition byte_of (v : Z) : byte :=
  match Byte.of_N (Z.to_N (v mod 256)) with Some b => b | None => x00 end.

Fixpoint int_to_bytes_little (length : nat) (v : Z) : list byte :=
  match length with
  | O => []
  | S n => byte_of v :: int_to_bytes_little n (v / 256)
  end.

(** Splits at spaces, as [gdb.string_to_argv] does for text without quotes. *)
Fixpoint words (cur : string) (s : string) : list string :=
  match s with
  | String c r =>
      if Ascii.eqb c " " then
        match cur with EmptyString => words EmptyString r | _ => cur :: words EmptyString r end
      else words (cur ++ String c EmptyString) r
  | EmptyString => match cur with EmptyString => [] | _ => [cur] end
  end.

(** The character database of Unicode 14.0, that of CPython 3.11: the white
    space from U+007F up, and the digits zero of the scripts, each followed
    by its digits one to nine. *)
Definition whitespace : list N :=
  [ 0x0085; 0x00A0; 0x1680; 0x2000; 0x2001; 0x2002; 0x2003; 0x2004; 0x2005;
    0x2006; 0x2007; 0x2008; 0x2009; 0x200A; 0x2028; 0x2029; 0x202F; 0x205F;
    0x3000 ]%N.

Definition decimal_zeros : list N :=
  [ 0x0660; 0x06F0; 0x07C0; 0x0966; 0x09E6; 0x0A66; 0x0AE6; 0x0B66; 0x0BE6;
    0x0C66; 0x0CE6; 0x0D66; 0x0DE6; 0x0E50; 0x0ED0; 0x0F20; 0x1040; 0x1090;
    0x17E0; 0x1810; 0x1946; 0x19D0; 0x1A80; 0x1A90; 0x1B50; 0x1BB0; 0x1C40;
    0x1C50; 0xA620; 0xA8D0; 0xA900; 0xA9D0; 0xA9F0; 0xAA50; 0xABF0; 0xFF10;
    0x104A0; 0x10D30; 0x11066; 0x110F0; 0x11136; 0x111D0; 0x112F0; 0x11450;
    0x114D0; 0x11650; 0x116C0; 0x11730; 0x118E0; 0x11950; 0x11C50; 0x11D50;
    0x11DA0; 0x16A60; 0x16AC0; 0x16B50; 0x1D7CE; 0x1D7D8; 0x1D7E2; 0x1D7EC;
    0x1D7F6; 0x1E140; 0x1E2F0; 0x1E950; 0x1FBF0 ]%N.

Definition to_decimal (ch : N) : Z :=
  match find (fun zero => ((zero <=? ch) && (ch <? zero + 10))%N%bool) decimal_zeros with
  | Some zero => Z.of_N (ch - zero)
  | None => -1
  end.

#[export] Instance unicode_14 : UnicodeData := {
  Py_UNICODE_ISSPACE ch := existsb (N.eqb ch) whitespace;
  Py_UNICODE_TODECIMAL := to_decimal
}.

(** The text whose UTF-8 encoding is the given bytes. *)
Definition text (bytes : list Z) : string :=
  fold_right (fun b s => String (ascii_of_N (Z.to_N b)) s) EmptyString bytes.

#[local] Instance session (m : machine) : Gdb nat := {
  gdb_execute _ calls :=
    (if packets_accepted m then Ok tt else Raise "not a remote target"%string, S calls);
  gdb_string_to_argv := words EmptyString;
  gdb_parse_and_eval_int _ calls :=
    (match cr3 m with Some v => Ok v | None => Raise "No registers."%string end, S calls);
  inferior_read_memory address length calls :=
    (match lookup address (memory m) with
     | Some v => Ok (int_to_bytes_little (Z.to_nat length) v)
     | None => Raise "Cannot access memory"%string
     end, S calls);
  sys_int_max_str_digits := 4300;
  unicode_data := unicode_14
}.

(** The session of machine [m] in which the user interrupts GDB during the
    call made after [at_call] earlier ones: that call raises
    [KeyboardInterrupt]. *)
#[local] Instance interrupted (at_call : nat) (m : machine) : Gdb nat := {
  gdb_execute command calls :=
    if Nat.eqb calls at_call then (Interrupt, S calls)
    else @gdb_execute nat (session m) command calls;
  gdb_string_to_argv := @gdb_string_to_argv nat (session m);
  gdb_parse_and_eval_int expression calls :=
    if Nat.eqb calls at_call then (Interrupt, S calls)
    else @gdb_parse_and_eval_int nat (session m) expression calls;
  inferior_read_memory address length calls :=
    if Nat.eqb calls at_call then (Interrupt, S calls)
    else @inferior_read_memory nat (session m) address length calls;
  sys_int_max_str_digits := @sys_int_max_str_digits nat (session m);
  unicode_data := @unicode_data nat (session m)
}.

(** The events of the whole command on machine [m]. *)
Definition events (m : machine) (arg : string) : list event :=
  snd (invoke (gdb := session m) arg O).

(** The events of the walk alone. *)
Definition walk_events (m : machine) (arg : string) : list event :=
  snd (ptwalk (gdb := session m) arg O).

(** Four tables mapping the page of 0x7FFFFFFFF000 to the frame 0x5000. *)
Definition small_pages : machine := {|
  cr3 := Some 0x1000;
  memory := [ (0x17F8, 0x2003); (0x2FF8, 0x3003); (0x3FF8, 0x4003);
              (0x4FF8, 0x8000000000005003) ];
  packets_accepted := true
|}.

(** The PDPT entry maps a 1 GiB page at 0x40000000. *)
Definition page_1gb : machine := {|
  cr3 := Some 0x1000;
  memory := [ (0x17F8, 0x2003); (0x2FF8, 0x40000083) ];
  packets_accepted := true
|}.

(** The PD entry maps a 2 MiB page at 0x600000. *)
Definition page_2mb : machine := {|
  cr3 := Some 0x1000;
  memory := [ (0x17F8, 0x2003); (0x2FF8, 0x3003); (0x3FF8, 0x600083) ];
  packets_accepted := true
|}.

(** The PD entry is not present. *)
Definition absent_pd : machine := {|
  cr3 := Some 0x1000;
  memory := [ (0x17F8, 0x2003); (0x2FF8, 0x3003); (0x3FF8, 0x4002) ];
  packets_accepted := true
|}.

(** A 2 MiB page above 256 TiB: bit 48 of the PD entry is set. *)
Definition high_2mb : machine := {|
  cr3 := Some 0x1000;
  memory := [ (0x17F8, 0x2003); (0x2FF8, 0x3003); (0x3FF8, 0x1000000600083) ];
  packets_accepted := true
|}.

(** A PDPT above 256 TiB: bit 48 of the PML4 entry is set. *)
Definition high_table : machine := {|
  cr3 := Some 0x1000;
  memory := [ (0x17F8, 0x1000000002003); (0x1000000002FF8, 0x40000083) ];
  packets_accepted := true
|}.

(** A 4 KiB frame above 256 TiB: bit 48 of the PT entry is set. *)
Definition high_frame : machine := {|
  cr3 := Some 0x1000;
  memory := [ (0x17F8, 0x2003); (0x2FF8, 0x3003); (0x3FF8, 0x4003);
              (0x4FF8, 0x1000000005003) ];
  packets_accepted := true
|}.

(** Tables mapping the page whose four indices are 511 to the frame 0x5000
    and the page whose four indices are 0 to the frame 0x6000. *)
Definition edge_pages : machine := {|
  cr3 := Some 0x1000;
  memory := [ (0x1FF8, 0x2003); (0x2FF8, 0x3003); (0x3FF8, 0x4003); (0x4FF8, 0x5003);
              (0x1000, 0x2003); (0x2000, 0x3003); (0x3000, 0x4003); (0x4000, 0x6003) ];
  packets_accepted := true
|}.

(** The target is not a remote one: the mode packet is refused. *)
Definition not_remote : machine := {|
  cr3 := Some 0x1000;
  memory := [];
  packets_accepted := false
|}.

(** The register cannot be read. *)
Definition no_register : machine := {|
  cr3 := None;
  memory := [];
  packets_accepted := true
|}.

End Machine.

(** * Properties *)

(** ** The parser accepts the literals and nothing else *)

Module PyIntFacts.

Import PyInt Literal.

Ltac each_char c := destruct c as [[] [] [] [] [] [] [] []].

Lemma is_space_ISSPACE c : is_space c = Py_ISSPACE c.
Proof. each_char c; reflexivity. Qed.

Lemma is_digit_value f c : is_digit f c = (PyLong_DigitValue c <? base_of f).
Proof. destruct f; each_char c; reflexivity. Qed.

Lemma digit_is_plain f c :
  is_digit f c = true ->
  is_underscore c = false /\ Py_ISSPACE c = false
  /\ Ascii.eqb c "+" = false /\ Ascii.eqb c "-" = false.
Proof. destruct f; each_char c; intros H; try discriminate H; repeat split. Qed.

Lemma space_is_plain c :
  Py_ISSPACE c = true ->
  is_underscore c = false /\ forall f, is_digit f c = false.
Proof.
  each_char c; intros H; try discriminate H; (split; [reflexivity | intros []; reflexivity]).
Qed.

Lemma digit_value_nonneg c : 0 <= PyLong_DigitValue c.
Proof. each_char c; vm_compute; discriminate. Qed.

Lemma digit_value_zero c : PyLong_DigitValue c = 0 -> c = "0"%char.
Proof. each_char c; intros H; try discriminate H; reflexivity. Qed.

Lemma underscore_value c : is_underscore c = true -> PyLong_DigitValue c = 37.
Proof. each_char c; intros H; try discriminate H; reflexivity. Qed.

Lemma append_assoc (a b c : string) : ((a ++ b) ++ c = a ++ b ++ c)%string.
Proof. induction a as [ | x a IH]; cbn; [reflexivity | now rewrite IH]. Qed.

Lemma append_empty (a : string) : (a ++ EmptyString)%string = a.
Proof. induction a as [ | x a IH]; cbn; [reflexivity | now rewrite IH]. Qed.

(** *** White space *)

Lemma skip_spaces_append pre s :
  all_spaces pre = true -> skip_spaces (pre ++ s) = skip_spaces s.
Proof.
  induction pre as [ | c pre IH]; cbn; [reflexivity | ].
  rewrite is_space_ISSPACE. destruct (Py_ISSPACE c); [exact IH | discriminate].
Qed.

Lemma skip_spaces_all s : all_spaces s = true -> skip_spaces s = EmptyString.
Proof.
  intros H. rewrite <- (append_empty s). now rewrite skip_spaces_append.
Qed.

Lemma skip_spaces_split s :
  exists pre, s = (pre ++ skip_spaces s)%string /\ all_spaces pre = true.
Proof.
  induction s as [ | c s (pre & Hs & Hpre)]; [now exists EmptyString | ].
  cbn. destruct (Py_ISSPACE c) eqn:E.
  - exists (String c pre). cbn. rewrite is_space_ISSPACE, E. split; [now f_equal | exact Hpre].
  - now exists EmptyString.
Qed.

Lemma skip_spaces_nothing s : skip_spaces s = EmptyString -> all_spaces s = true.
Proof.
  induction s as [ | c s IH]; cbn; [reflexivity | ].
  rewrite is_space_ISSPACE. destruct (Py_ISSPACE c); [exact IH | discriminate].
Qed.

(** *** The digit loop *)

Lemma scan_stops base acc n rest :
  stops base rest -> scan_digits base false acc n rest = Some (acc, n, rest).
Proof.
  destruct rest as [ | c r]; cbn; [reflexivity | ].
  now intros [-> ->].
Qed.

Lemma digits_tail_weaken (d1 d2 : ascii -> bool) t :
  (forall c, d1 c = true -> d2 c = true) -> digits_tail d1 t -> digits_tail d2 t.
Proof.
  intros Hd Ht.
  induction Ht; [apply tail_end | apply tail_digit | apply tail_underscore]; auto.
Qed.

Lemma scan_tail f t :
  digits_tail (is_digit f) t ->
  forall acc n rest,
    stops (base_of f) rest ->
    scan_digits (base_of f) false acc n (t ++ rest)
    = Some (value (base_of f) acc t, (n + count t)%nat, rest).
Proof.
  intros Ht. induction Ht as [ | c t Hc Ht IH | c t Hc Ht IH]; intros acc n rest Hrest.
  - cbn [append value count]. rewrite Nat.add_0_r. now apply scan_stops.
  - destruct (digit_is_plain f c Hc) as (Hu & _).
    rewrite is_digit_value in Hc.
    cbn. rewrite Hu, Hc, IH by assumption. do 3 f_equal. lia.
  - destruct (digit_is_plain f c Hc) as (Hu & _).
    rewrite is_digit_value in Hc.
    cbn. rewrite Hu, Hc, IH by assumption. do 3 f_equal. lia.
Qed.

Lemma scan_sound f s :
  forall prev acc n z n' rest,
    scan_digits (base_of f) prev acc n s = Some (z, n', rest) ->
    exists t,
      s = (t ++ rest)%string
      /\ (if prev then digits (is_digit f) t else digits_tail (is_digit f) t)
      /\ z = value (base_of f) acc t
      /\ n' = (n + count t)%nat.
Proof.
  induction s as [ | c s IH]; intros prev acc n z n' rest H; cbn in H.
  - destruct prev; [discriminate | ]. injection H as <- <- <-.
    exists EmptyString. repeat split; [constructor | cbn; lia].
  - destruct (is_underscore c) eqn:Hu.
    + destruct prev; [discriminate | ].
      apply IH in H. destruct H as (t & -> & Ht & -> & ->).
      destruct Ht as [c' t' Hc' Ht'].
      assert (c = "_"%char) as -> by (now apply Ascii.eqb_eq).
      exists (String "_" (String c' t')). repeat split.
      * now constructor.
    + destruct (PyLong_DigitValue c <? base_of f) eqn:Hd.
      * apply IH in H. destruct H as (t & -> & Ht & -> & ->).
        rewrite <- is_digit_value in Hd.
        exists (String c t). cbn. rewrite Hu. repeat split.
        -- destruct prev; now constructor.
        -- lia.
      * destruct prev; [discriminate | ]. injection H as <- <- <-.
        exists EmptyString. repeat split; [constructor | cbn; lia].
Qed.

(** *** Numbers *)

Lemma number_starts f body :
  number f body -> exists c r, body = String c r /\ is_digit Decimal c = true.
Proof.
  intros [c t Hc _ _ | s [c t Hc _] | g p s _ _ | g p s _ _].
  - now exists c, t.
  - exists c, t. split; [reflexivity | ].
    apply Ascii.eqb_eq in Hc. now subst c.
  - now eexists; eexists.
  - now eexists; eexists.
Qed.

Lemma space_value c : Py_ISSPACE c = true -> PyLong_DigitValue c = 37.
Proof. each_char c; intros H; try discriminate H; reflexivity. Qed.

Lemma stops_spaces base post : 0 < base <= 36 -> all_spaces post = true -> stops base post.
Proof.
  intros Hbase. destruct post as [ | c r]; cbn; [trivial | ].
  rewrite is_space_ISSPACE. intros H. apply andb_prop in H as [H _].
  split.
  - now apply space_is_plain.
  - rewrite (space_value c H). apply Z.ltb_ge. lia.
Qed.

Lemma base_of_range f : 0 < base_of f <= 36.
Proof. destruct f; cbn; lia. Qed.

Lemma value_zeros base t : digits_tail is_zero t -> value base 0 t = 0.
Proof.
  intros Ht. induction Ht as [ | c t Hc Ht IH | c t Hc Ht IH].
  - reflexivity.
  - apply Ascii.eqb_eq in Hc. subst c. exact IH.
  - apply Ascii.eqb_eq in Hc. subst c. exact IH.
Qed.

Lemma value_zero_inv t :
  digits_tail (is_digit Decimal) t ->
  forall acc, 0 <= acc -> value 10 acc t = 0 -> acc = 0 /\ digits_tail is_zero t.
Proof.
  intros Ht. induction Ht as [ | c t Hc Ht IH | c t Hc Ht IH]; intros acc Hacc Hv.
  - split; [exact Hv | constructor].
  - destruct (digit_is_plain _ c Hc) as (Hu & _). cbn in Hv. rewrite Hu in Hv.
    pose proof (digit_value_nonneg c) as Hd.
    apply IH in Hv as [H0 Hz]; [ | lia].
    assert (PyLong_DigitValue c = 0) as Hc0 by lia.
    apply digit_value_zero in Hc0. subst c.
    split; [lia | now apply tail_digit].
  - destruct (digit_is_plain _ c Hc) as (Hu & _). cbn in Hv. rewrite Hu in Hv.
    pose proof (digit_value_nonneg c) as Hd.
    apply IH in Hv as [H0 Hz]; [ | lia].
    assert (PyLong_DigitValue c = 0) as Hc0 by lia.
    apply digit_value_zero in Hc0. subst c.
    split; [lia | now apply tail_underscore].
Qed.

Lemma count_digits d c t :
  (forall c, d c = true -> is_underscore c = false) ->
  d c = true -> count (String c t) = S (count t).
Proof. intros Hd Hc. cbn. now rewrite (Hd c Hc). Qed.

(** After the digits [t] of a number, followed by white space, the loop gives
    the value and the rest of the checks pass. *)
Lemma finish_number max f e t post :
  digits (is_digit f) t ->
  all_spaces post = true ->
  too_many_digits max (base_of f) (count t) = false ->
  (e = true -> value (base_of f) 0 t = 0) ->
  convert_digits max (base_of f) e (t ++ post) = Some (value (base_of f) 0 t).
Proof.
  intros [c t' Hc Ht'] Hpost Hmany Hzero. unfold convert_digits.
  destruct (digit_is_plain f c Hc) as (Hu & _).
  assert (Htail : digits_tail (is_digit f) (String c t')) by now apply tail_digit.
  rewrite (scan_tail f _ Htail 0 0%nat post (stops_spaces _ _ (base_of_range f) Hpost)).
  cbn [append starts_with_underscore]. rewrite Hu. cbn [Nat.add].
  rewrite Hmany.
  assert (He : (e && negb (value (base_of f) 0 (String c t') =? 0))%bool = false).
  { destruct e; [ | reflexivity]. now rewrite Hzero. }
  rewrite He. cbn [count]. rewrite Hu. cbn [Nat.eqb].
  now rewrite (skip_spaces_all post Hpost).
Qed.

Lemma finished_number max f e s z :
  convert_digits max (base_of f) e s = Some z ->
  exists t post,
    s = (t ++ post)%string
    /\ digits (is_digit f) t
    /\ all_spaces post = true
    /\ too_many_digits max (base_of f) (count t) = false
    /\ z = value (base_of f) 0 t
    /\ (e = true -> z = 0).
Proof.
  unfold convert_digits. intros H.
  destruct (starts_with_underscore s) eqn:Hguard; [discriminate | ].
  destruct (scan_digits (base_of f) false 0 0 s) as [[[z' n] rest] | ] eqn:Hscan;
    [ | discriminate].
  destruct (too_many_digits max (base_of f) n) eqn:Hmany; [discriminate | ].
  destruct (e && negb (z' =? 0))%bool eqn:He; [discriminate | ].
  destruct (Nat.eqb n 0) eqn:Hn; [discriminate | ].
  destruct (skip_spaces rest) eqn:Hrest; [ | discriminate].
  injection H as <-.
  apply scan_sound in Hscan. destruct Hscan as (t & -> & Ht & Hz & ->).
  exists t, rest. cbn [Nat.add] in *. repeat split.
  - destruct Ht as [ | c t Hc Ht | c t Hc Ht].
    + discriminate Hn.
    + now constructor.
    + discriminate Hguard.
  - now apply skip_spaces_nothing.
  - exact Hmany.
  - exact Hz.
  - intros ->. cbn in He. apply negb_false_iff in He. now apply Z.eqb_eq.
Qed.

Lemma is_prefix_cases f p :
  is_prefix f p = true ->
  (f = Hexadecimal /\ (p = "x" \/ p = "X")
   \/ f = Octal /\ (p = "o" \/ p = "O")
   \/ f = Binary /\ (p = "b" \/ p = "B"))%char.
Proof.
  destruct f; cbn; intros H; [discriminate | | | ];
    apply orb_prop in H as [H | H]; apply Ascii.eqb_eq in H; auto 6.
Qed.

Lemma count_decimal t :
  digits_tail (is_digit Decimal) t -> count t = decimal_digits t.
Proof.
  intros Ht. induction Ht as [ | c t Hc Ht IH | c t Hc Ht IH].
  - reflexivity.
  - destruct (digit_is_plain _ c Hc) as (Hu & _).
    cbn [count decimal_digits]. now rewrite Hu, Hc, IH.
  - destruct (digit_is_plain _ c Hc) as (Hu & _).
    cbn [count decimal_digits]. change (is_underscore "_") with true.
    change (is_digit Decimal "_") with false. cbn iota. now rewrite Hu, Hc, IH.
Qed.

Lemma zero_is_decimal c : is_zero c = true -> is_digit Decimal c = true.
Proof. intros H. apply Ascii.eqb_eq in H. now subst c. Qed.

Lemma few_digits max base n : base <> 10 -> too_many_digits max base n = false.
Proof.
  intros H. unfold too_many_digits. apply Z.eqb_neq in H. now rewrite H.
Qed.

Lemma not_a_prefix c :
  (is_zero c || is_underscore c || Py_ISSPACE c)%bool = true ->
  is_one_of c "x" "X" = false /\ is_one_of c "o" "O" = false
  /\ is_one_of c "b" "B" = false.
Proof. each_char c; intros H; try discriminate H; repeat split. Qed.

Lemma detect_base_zeros t post :
  digits_tail is_zero t -> all_spaces post = true ->
  detect_base (String "0" (t ++ post)) = (10, true).
Proof.
  intros Ht Hpost. cbn.
  assert (Hfirst : match (t ++ post)%string with
                   | String c _ => (is_zero c || is_underscore c || Py_ISSPACE c)%bool = true
                   | EmptyString => True
                   end).
  { destruct Ht as [ | c t Hc Ht | c t Hc Ht]; cbn.
    - destruct post as [ | c r]; [trivial | ]. cbn in Hpost.
      rewrite is_space_ISSPACE in Hpost. apply andb_prop in Hpost as [-> _].
      apply orb_true_r.
    - now rewrite Hc.
    - reflexivity. }
  destruct (t ++ post)%string as [ | c r]; [reflexivity | ].
  destruct (not_a_prefix c Hfirst) as (-> & -> & ->). reflexivity.
Qed.

Lemma unsigned_number max f body post :
  number f body ->
  all_spaces post = true ->
  too_many_digits max (base_of f) (decimal_digits body) = false ->
  fst (detect_base (body ++ post)) = base_of f
  /\ exists z, unsigned max (body ++ post) = Some z.
Proof.
  intros Hnum Hpost Hmany. unfold unsigned.
  destruct Hnum as [c t Hc Hnz Ht | s Hs | g p s Hp Hs | g p s Hp Hs].
  - (* a decimal number that starts with a digit other than 0 *)
    assert (Hdet : detect_base (String c t ++ post) = (10, false)).
    { cbn. apply Ascii.eqb_neq in Hnz. now rewrite Hnz. }
    rewrite Hdet. split; [reflexivity | ]. cbn [strip_prefix Z.eqb Pos.eqb].
    eexists. apply (finish_number max Decimal false (String c t)).
    + now constructor.
    + exact Hpost.
    + rewrite count_decimal by now apply tail_digit. exact Hmany.
    + discriminate.
  - (* zero *)
    destruct Hs as [c t Hc Ht]. apply Ascii.eqb_eq in Hc. subst c.
    cbn [append]. rewrite (detect_base_zeros t post Ht Hpost).
    split; [reflexivity | ]. cbn [strip_prefix Z.eqb Pos.eqb].
    assert (Hdec : digits_tail (is_digit Decimal) (String "0" t)).
    { apply tail_digit; [reflexivity | ].
      exact (digits_tail_weaken _ _ t zero_is_decimal Ht). }
    eexists. apply (finish_number max Decimal true (String "0" t)).
    + inversion Hdec; subst. now constructor.
    + exact Hpost.
    + rewrite count_decimal by exact Hdec. exact Hmany.
    + intros _. apply (value_zeros 10 (String "0" t)). now apply tail_digit.
  - (* a prefix and digits *)
    destruct Hs as [c t Hc Ht]. destruct (digit_is_plain g c Hc) as (Hu & _).
    assert (Hdet : detect_base (String "0" (String p (String c t)) ++ post)
                   = (base_of g, false)
                   /\ (base_of g =? 10) = false).
    { destruct (is_prefix_cases g p Hp) as [(-> & [-> | ->]) | [(-> & [-> | ->]) | (-> & [-> | ->])]];
        split; reflexivity. }
    destruct Hdet as [Hdet Hten]. rewrite Hdet. split; [reflexivity | ].
    unfold strip_prefix. rewrite Hten. cbn [append]. rewrite Hu.
    eexists. apply (finish_number max g false (String c t)).
    + now constructor.
    + exact Hpost.
    + apply few_digits. now apply Z.eqb_neq.
    + discriminate.
  - (* a prefix, an underscore and digits *)
    destruct Hs as [c t Hc Ht].
    assert (Hdet : detect_base (String "0" (String p (String "_" (String c t))) ++ post)
                   = (base_of g, false)
                   /\ (base_of g =? 10) = false).
    { destruct (is_prefix_cases g p Hp) as [(-> & [-> | ->]) | [(-> & [-> | ->]) | (-> & [-> | ->])]];
        split; reflexivity. }
    destruct Hdet as [Hdet Hten]. rewrite Hdet. split; [reflexivity | ].
    unfold strip_prefix. rewrite Hten. cbn [append].
    change (is_underscore "_") with true. cbn iota.
    eexists. apply (finish_number max g false (String c t)).
    + now constructor.
    + exact Hpost.
    + apply few_digits. now apply Z.eqb_neq.
    + discriminate.
Qed.

Lemma detect_base_cases s :
  (detect_base s = (10, false)
   /\ forall r, s <> String "0" r)
  \/ (detect_base s = (10, true) /\ exists r, s = String "0" r)
  \/ (exists f p r,
        is_prefix f p = true /\ s = String "0" (String p r)
        /\ detect_base s = (base_of f, false) /\ (base_of f =? 10) = false).
Proof.
  destruct s as [ | c0 r]; [left; split; [reflexivity | discriminate] | ].
  cbn. destruct (Ascii.eqb_spec c0 "0") as [-> | Hc0].
  - right. destruct r as [ | c r]; [left; split; [reflexivity | now eexists] | ].
    destruct (is_one_of c "x" "X") eqn:Hx.
    { right. exists Hexadecimal, c, r. now repeat split. }
    destruct (is_one_of c "o" "O") eqn:Ho.
    { right. exists Octal, c, r. now repeat split. }
    destruct (is_one_of c "b" "B") eqn:Hb.
    { right. exists Binary, c, r. now repeat split. }
    left. split; [reflexivity | now eexists].
  - left. split; [reflexivity | ]. intros r' H. injection H as H _. contradiction.
Qed.

Lemma unsigned_sound max s z :
  unsigned max s = Some z ->
  exists f body post,
    s = (body ++ post)%string
    /\ number f body
    /\ all_spaces post = true
    /\ too_many_digits max (base_of f) (decimal_digits body) = false.
Proof.
  unfold unsigned. intros H.
  destruct (detect_base_cases s)
    as [[Hdet Hnz] | [[Hdet (r & ->)] | (f & p & r & Hp & -> & Hdet & Hten)]];
    rewrite Hdet in H.
  - (* no leading zero *)
    cbn [strip_prefix Z.eqb Pos.eqb] in H.
    apply (finished_number max Decimal) in H.
    destruct H as (t & post & -> & Ht & Hpost & Hmany & _ & _).
    exists Decimal, t, post. repeat split; try assumption.
    + destruct Ht as [c t Hc Ht]. apply number_decimal; try assumption.
      intros ->. now apply (Hnz (t ++ post)%string).
    + rewrite <- count_decimal; [exact Hmany | ].
      destruct Ht. now apply tail_digit.
  - (* a leading zero and no prefix *)
    cbn [strip_prefix Z.eqb Pos.eqb] in H.
    apply (finished_number max Decimal) in H.
    destruct H as (t & post & Hs & Ht & Hpost & Hmany & Hz & Hzero).
    assert (Htail : digits_tail (is_digit Decimal) t) by (destruct Ht; now apply tail_digit).
    exists Decimal, t, post. repeat split; try assumption.
    + apply number_zero. specialize (Hzero eq_refl). rewrite Hz in Hzero.
      cbn [base_of] in Hzero.
      apply value_zero_inv in Hzero as [_ Hzeros]; [ | assumption | lia].
      destruct Hzeros as [ | c t Hc Hzeros | c t Hc Hzeros].
      * inversion Ht.
      * now constructor.
      * inversion Ht; subst. discriminate.
    + rewrite <- count_decimal; assumption.
  - (* a prefix *)
    unfold strip_prefix in H. rewrite Hten in H.
    assert (Hstrip :
      exists r', convert_digits max (base_of f) false r' = Some z
                 /\ (r = r' \/ r = String "_" r')).
    { destruct r as [ | c r']; [now eexists; split; [exact H | left] | ].
      destruct (is_underscore c) eqn:Hu.
      - apply Ascii.eqb_eq in Hu. subst c. now eexists; split; [exact H | right].
      - now eexists; split; [exact H | left]. }
    destruct Hstrip as (r' & Hconv & Hr).
    apply finished_number in Hconv.
    destruct Hconv as (t & post & -> & Ht & Hpost & _ & _ & _).
    assert (Hfew : too_many_digits max (base_of f)
                     (decimal_digits (String "0" (String p t))) = false
                   /\ too_many_digits max (base_of f)
                     (decimal_digits (String "0" (String p (String "_" t)))) = false).
    { split; apply few_digits; now apply Z.eqb_neq. }
    destruct Hr as [-> | ->].
    + exists f, (String "0" (String p t)), post. repeat split; try assumption.
      * now apply number_prefix.
      * apply Hfew.
    + exists f, (String "0" (String p (String "_" t))), post. repeat split; try assumption.
      * now apply number_prefix_underscore.
      * apply Hfew.
Qed.

(** *** Whole texts *)

Lemma split_sign_cases s :
  exists sg, sign sg /\ s = (sg ++ snd (split_sign s))%string.
Proof.
  destruct s as [ | c r]; [exists EmptyString; split; [constructor | reflexivity] | ].
  cbn. destruct (Ascii.eqb_spec c "+") as [-> | _].
  { exists "+"%string. split; [constructor | reflexivity]. }
  destruct (Ascii.eqb_spec c "-") as [-> | _].
  { exists "-"%string. split; [constructor | reflexivity]. }
  exists EmptyString. split; [constructor | reflexivity].
Qed.

Lemma split_sign_number sg f body post :
  sign sg -> number f body ->
  skip_spaces (sg ++ body ++ post) = (sg ++ body ++ post)%string
  /\ snd (split_sign (sg ++ body ++ post)) = (body ++ post)%string.
Proof.
  intros Hsg Hnum. destruct (number_starts f body Hnum) as (c & r & -> & Hc).
  destruct (digit_is_plain _ c Hc) as (_ & Hspace & Hplus & Hminus).
  destruct Hsg; cbn; rewrite ?Hspace, ?Hplus, ?Hminus; split; reflexivity.
Qed.

Lemma decimal_digits_append a b :
  decimal_digits (a ++ b) = (decimal_digits a + decimal_digits b)%nat.
Proof.
  induction a as [ | c a IH]; cbn [append decimal_digits]; [reflexivity | ].
  destruct (is_digit Decimal c); rewrite IH; reflexivity.
Qed.

Lemma decimal_digits_spaces s : all_spaces s = true -> decimal_digits s = O.
Proof.
  induction s as [ | c s IH]; cbn [all_spaces decimal_digits]; [reflexivity | ].
  intros H. apply andb_prop in H as [Hc Hs]. rewrite is_space_ISSPACE in Hc.
  destruct (space_is_plain c Hc) as [_ Hd]. rewrite Hd. now apply IH.
Qed.

Lemma decimal_digits_literal pre sg body post :
  all_spaces pre = true -> sign sg -> all_spaces post = true ->
  decimal_digits (pre ++ sg ++ body ++ post) = decimal_digits body.
Proof.
  intros Hpre Hsg Hpost.
  rewrite !decimal_digits_append, (decimal_digits_spaces pre Hpre),
    (decimal_digits_spaces post Hpost).
  destruct Hsg; cbn; lia.
Qed.

Lemma exceeds_too_many max f text :
  ~ exceeds max f text
  <-> too_many_digits max (base_of f) (decimal_digits text) = false.
Proof.
  unfold exceeds, too_many_digits, MAX_STR_DIGITS_THRESHOLD.
  destruct (Nat.ltb_spec 640 (decimal_digits text)) as [H1 | H1],
    (Nat.ltb_spec 0 max) as [H2 | H2],
    (Nat.ltb_spec max (decimal_digits text)) as [H3 | H3];
    rewrite ?andb_false_r; cbn [andb];
    destruct f; cbn; split; intros H; try reflexivity; try discriminate;
    try (intros (Hf & ? & ?); (discriminate Hf || lia)).
  exfalso. apply H. repeat split; assumption.
Qed.

(** The parser accepts the literals within the digit limit, and nothing else. *)
Theorem PyLong_FromString_accepts max text :
  (exists z, PyLong_FromString max text = Some z)
  <-> exists f, literal f text /\ ~ exceeds max f text.
Proof.
  unfold PyLong_FromString. split.
  - intros [z H].
    destruct (skip_spaces_split text) as (pre & Htext & Hpre).
    destruct (split_sign_cases (skip_spaces text)) as (sg & Hsg & Hs).
    destruct (split_sign (skip_spaces text)) as [sgn s]. cbn [snd] in Hs.
    destruct (unsigned max s) as [z' | ] eqn:Hun; [ | discriminate].
    apply unsigned_sound in Hun.
    destruct Hun as (f & body & post & -> & Hnum & Hpost & Hmany).
    exists f. rewrite Htext, Hs. split; [now constructor | ].
    apply exceeds_too_many. now rewrite decimal_digits_literal.
  - intros (f & Hlit & Hex). destruct Hlit as [pre sg body post Hpre Hsg Hnum Hpost].
    apply exceeds_too_many in Hex. rewrite decimal_digits_literal in Hex by assumption.
    rewrite skip_spaces_append by assumption.
    destruct (split_sign_number sg f body post Hsg Hnum) as [-> Hsnd].
    destruct (split_sign (sg ++ body ++ post)) as [sgn s]. cbn [snd] in Hsnd. subst s.
    destruct (unsigned_number max f body post Hnum Hpost Hex) as (_ & z & ->).
    now eexists.
Qed.

(** [int] accepts the texts that the transformation brings to a literal
    within the digit limit, and nothing else. *)
Theorem int0_accepts {ucd : UnicodeData} max text :
  (exists z, int0 max text = Some z)
  <-> exists f,
        literal f (PyUnicode_TransformDecimalAndSpaceToASCII text)
        /\ ~ exceeds max f (PyUnicode_TransformDecimalAndSpaceToASCII text).
Proof. apply PyLong_FromString_accepts. Qed.

(** An ASCII text is parsed as it stands. *)
Lemma int0_ascii {ucd : UnicodeData} max text :
  PyUnicode_IS_ASCII text = true -> int0 max text = PyLong_FromString max text.
Proof.
  intros H. unfold int0, PyUnicode_TransformDecimalAndSpaceToASCII. now rewrite H.
Qed.

(** The transformation keeps the ASCII characters other than DEL where they
    are. *)
Lemma transform_cons {ucd : UnicodeData} c text :
  (N_of_ascii c <? 127)%N = true ->
  transform (String c text) = String c (transform text).
Proof.
  intros Hc. cbn [transform].
  assert (H128 : (N_of_ascii c <? 128)%N = true).
  { apply N.ltb_lt. apply N.ltb_lt in Hc. lia. }
  rewrite H128. unfold transform_char. now rewrite Hc, ascii_N_embedding.
Qed.

Lemma transform_head2 {ucd : UnicodeData} c0 c1 text :
  (N_of_ascii c0 <? 127)%N = true ->
  (N_of_ascii c1 <? 127)%N = true ->
  exists text',
    PyUnicode_TransformDecimalAndSpaceToASCII (String c0 (String c1 text))
    = String c0 (String c1 text').
Proof.
  intros H0 H1. unfold PyUnicode_TransformDecimalAndSpaceToASCII.
  destruct (PyUnicode_IS_ASCII (String c0 (String c1 text))); [now eexists | ].
  rewrite (transform_cons c0) by assumption.
  rewrite (transform_cons c1) by assumption. now eexists.
Qed.

(** The base the parser chooses for a literal is the base of its form. *)
Lemma literal_base f text :
  literal f text ->
  fst (detect_base (snd (split_sign (skip_spaces text)))) = base_of f.
Proof.
  intros [pre sg body post Hpre Hsg Hnum Hpost].
  rewrite skip_spaces_append by assumption.
  destruct (split_sign_number sg f body post Hsg Hnum) as [-> ->].
  apply (unsigned_number O f body post Hnum Hpost).
  unfold too_many_digits. change (Nat.ltb 0 0) with false.
  now rewrite andb_false_r.
Qed.

End PyIntFacts.

(** ** Numbers printed and read back *)

Module HexFacts.

Import PyInt Literal PyIntFacts.

Lemma pos_strong_induction (P : positive -> Prop) :
  (forall p, (forall q, (q < p)%positive -> P q) -> P p) -> forall p, P p.
Proof.
  intros H p.
  assert (Hn : forall n q, (Pos.to_nat q < n)%nat -> P q).
  { induction n as [ | n IHn]; intros q Hq; [lia | ].
    apply H. intros r Hr. apply IHn. lia. }
  apply (Hn (S (Pos.to_nat p))). lia.
Qed.

Lemma of_pos_hex_digits (p : positive) :
  forall rest, all_hex_digits rest = true ->
    all_hex_digits (HexString.Raw.of_pos p rest) = true.
Proof.
  induction p as [p IH] using pos_strong_induction. intros rest Hrest.
  do 4 try destruct p as [p | p | ]; cbn [HexString.Raw.of_pos];
    try (apply IH; [lia | cbn [all_hex_digits]; now rewrite Hrest]);
    cbn [all_hex_digits]; now rewrite Hrest.
Qed.

Lemma of_pos_starts (p : positive) :
  forall rest, exists c t, HexString.Raw.of_pos p rest = String c t.
Proof.
  induction p as [p IH] using pos_strong_induction. intros rest.
  do 4 try destruct p as [p | p | ]; cbn [HexString.Raw.of_pos];
    try (apply IH; lia); now eexists; eexists.
Qed.

Lemma hex_digits_tail s :
  all_hex_digits s = true -> digits_tail (is_digit Hexadecimal) s.
Proof.
  induction s as [ | c s IH]; cbn [all_hex_digits]; intros H; [constructor | ].
  apply andb_prop in H as [Hc Hs]. apply tail_digit; auto.
Qed.

Lemma hex_digit_value c :
  is_digit Hexadecimal c = true ->
  is_underscore c = false
  /\ HexString.ascii_to_digit c = Some (Z.to_N (PyLong_DigitValue c))
  /\ 0 <= PyLong_DigitValue c < 16.
Proof.
  each_char c; intros H; try discriminate H; vm_compute; repeat split; discriminate.
Qed.

Lemma value_to_N s :
  all_hex_digits s = true ->
  forall acc, 0 <= acc ->
    value 16 acc s = Z.of_N (HexString.Raw.to_N s (Z.to_N acc)).
Proof.
  induction s as [ | c s IH]; cbn [all_hex_digits value HexString.Raw.to_N];
    intros H acc Hacc; [lia | ].
  apply andb_prop in H as [Hc Hs].
  destruct (hex_digit_value c Hc) as (-> & -> & Hd).
  rewrite IH by (assumption || lia). do 2 f_equal. lia.
Qed.

Lemma hex_digits_read (max : nat) (p : positive) :
  unsigned max (String "0" (String "x" (HexString.Raw.of_pos p EmptyString)))
  = Some (Z.pos p).
Proof.
  pose proof (of_pos_hex_digits p EmptyString eq_refl) as Hall.
  assert (Hval : value 16 0 (HexString.Raw.of_pos p EmptyString) = Z.pos p).
  { rewrite value_to_N by (assumption || lia).
    change (Z.to_N 0) with 0%N. now rewrite HexString.Raw.to_N_of_pos. }
  destruct (of_pos_starts p EmptyString) as (c & t & Hs). rewrite Hs in *.
  cbn [all_hex_digits] in Hall. apply andb_prop in Hall as [Hc Ht].
  destruct (digit_is_plain _ c Hc) as (Hu & _).
  unfold unsigned. cbn [detect_base]. change (Ascii.eqb "0" "0") with true.
  change (is_one_of "x" "x" "X") with true. cbn iota.
  unfold strip_prefix. change (16 =? 10) with false. cbn iota. rewrite Hu.
  rewrite <- (append_empty (String c t)).
  change 16 with (base_of Hexadecimal).
  rewrite (finish_number max Hexadecimal false (String c t) EmptyString).
  - f_equal. exact Hval.
  - constructor; [exact Hc | now apply hex_digits_tail].
  - reflexivity.
  - apply few_digits. discriminate.
  - discriminate.
Qed.

Lemma hex_digits_ascii s :
  all_hex_digits s = true -> PyUnicode_IS_ASCII s = true.
Proof.
  induction s as [ | c s IH]; cbn [all_hex_digits PyUnicode_IS_ASCII];
    intros H; [reflexivity | ].
  apply andb_prop in H as [Hc Hs]. rewrite (IH Hs), andb_true_r.
  revert Hc. each_char c; intros Hc; try discriminate Hc; reflexivity.
Qed.

Lemma hex_is_ascii (n : Z) : PyUnicode_IS_ASCII (hex n) = true.
Proof.
  destruct n as [ | p | p]; [reflexivity | | ];
    unfold hex, HexString.of_Z, HexString.of_pos;
    cbn [PyUnicode_IS_ASCII append];
    rewrite (hex_digits_ascii _ (of_pos_hex_digits p EmptyString eq_refl));
    reflexivity.
Qed.

(** [int(hex(n), 0)] is [n]: zero, positive or negative, however long. *)
Lemma hex_reads_back {ucd : UnicodeData} (max : nat) (n : Z) :
  int0 max (hex n) = Some n.
Proof.
  rewrite int0_ascii by apply hex_is_ascii.
  destruct n as [ | p | p]; [reflexivity | | ].
  - unfold hex, HexString.of_Z, HexString.of_pos, PyLong_FromString.
    cbn [skip_spaces]. change (Py_ISSPACE "0") with false. cbn iota.
    cbn [split_sign]. change (Ascii.eqb "0" "+") with false.
    change (Ascii.eqb "0" "-") with false. cbn iota.
    now rewrite hex_digits_read.
  - unfold hex, HexString.of_Z, HexString.of_pos, PyLong_FromString.
    cbn [skip_spaces]. change (Py_ISSPACE "-") with false. cbn iota.
    cbn [split_sign]. change (Ascii.eqb "-" "+") with false.
    change (Ascii.eqb "-" "-") with true. cbn iota.
    now rewrite hex_digits_read.
Qed.

End HexFacts.

(** ** Bit fields *)

Section Bits.

(** The constants of the script, as runs of ones. *)
Lemma field_bit (v k n i : Z) :
  0 <= k -> 0 <= n ->
  Z.testbit (Z.shiftl (Z.land (Z.shiftr v k) (Z.ones n)) k) i
  = ((k <=? i) && (i <? k + n) && Z.testbit v i)%bool.
Proof.
  intros Hk Hn.
  destruct (Z.ltb_spec i 0) as [Hneg | Hi].
  - rewrite (Z.testbit_neg_r _ i) by lia.
    destruct (Z.leb_spec k i); [lia | reflexivity].
  - rewrite Z.shiftl_spec by lia.
    destruct (Z.leb_spec k i) as [Hle | Hlt].
    + rewrite Z.land_spec, Z.shiftr_spec, Z.testbit_ones_nonneg by lia.
      replace (i - k + k) with i by lia.
      destruct (Z.ltb_spec (i - k) n), (Z.ltb_spec i (k + n)); try lia;
        simpl; auto using andb_comm.
    + apply Z.testbit_neg_r; lia.
Qed.

(** A mask keeping the bits from [lo] up to, not including, [hi]. *)
Lemma mask_bit (e lo hi i : Z) :
  0 <= lo <= hi -> 0 <= i ->
  Z.testbit (Z.land e (2 ^ hi - 2 ^ lo)) i
  = (Z.testbit e i && (lo <=? i) && (i <? hi))%bool.
Proof.
  intros Hlh Hi.
  assert (Hm : 2 ^ hi - 2 ^ lo = Z.shiftl (Z.ones (hi - lo)) lo).
  { assert (Hp : 2 ^ hi = 2 ^ (hi - lo) * 2 ^ lo).
    { rewrite <- Z.pow_add_r by lia. f_equal. lia. }
    rewrite Z.shiftl_mul_pow2, Z.ones_equiv by lia. lia. }
  rewrite Hm, Z.land_spec, Z.shiftl_spec by lia.
  destruct (Z.leb_spec lo i) as [Hle | Hlt].
  - rewrite Z.testbit_ones_nonneg by lia.
    destruct (Z.ltb_spec (i - lo) (hi - lo)), (Z.ltb_spec i hi); try lia;
      now rewrite ?andb_true_r, ?andb_false_r.
  - rewrite (Z.testbit_neg_r _ (i - lo)) by lia. now rewrite !andb_false_r.
Qed.

Lemma not_present_bit0 (entry : Z) : not_present entry = negb (Z.testbit entry 0).
Proof.
  unfold not_present.
  change 0x1 with (Z.ones 1). rewrite Z.land_ones by lia.
  change (2 ^ 1) with 2. rewrite <- Z.bit0_mod. destruct (Z.testbit entry 0); reflexivity.
Qed.

Lemma huge_bit_bit7 (entry : Z) : huge_bit entry = Z.testbit entry 7.
Proof.
  unfold huge_bit. change (Z.shiftl 1 7) with (2 ^ 7).
  destruct (Z.testbit entry 7) eqn:E.
  - destruct (Z.eqb_spec (Z.land entry (2 ^ 7)) 0) as [H0 | ]; [ | reflexivity].
    assert (Hb : Z.testbit (Z.land entry (2 ^ 7)) 7 = true).
    { rewrite Z.land_spec, E, Z.pow2_bits_true by lia. reflexivity. }
    rewrite H0, Z.bits_0 in Hb. discriminate.
  - replace (Z.land entry (2 ^ 7)) with 0; [reflexivity | ].
    symmetry. apply Z.bits_inj'. intros i Hi.
    rewrite Z.land_spec, Z.bits_0, Z.pow2_bits_eqb by lia.
    destruct (Z.eqb_spec 7 i) as [<- | ]; [now rewrite E | apply andb_false_r].
Qed.

(** The shape of a masked value: a multiple of [2 ^ lo] below [2 ^ hi]. *)
Lemma land_mask_shape (x lo hi : Z) :
  0 <= lo <= hi ->
  Z.land x (2 ^ hi - 2 ^ lo) = ((x / 2 ^ lo) mod 2 ^ (hi - lo)) * 2 ^ lo.
Proof.
  intros Hlh. apply Z.bits_inj'. intros i Hi.
  rewrite mask_bit, Z.mul_pow2_bits by lia.
  destruct (Z.leb_spec lo i) as [Hle | Hlt].
  - rewrite Z.testbit_mod_pow2, Z.div_pow2_bits by lia.
    replace (i - lo + lo) with i by lia.
    destruct (Z.ltb_spec i hi), (Z.ltb_spec (i - lo) (hi - lo)); try lia;
      now rewrite ?andb_true_r, ?andb_false_r.
  - rewrite (Z.testbit_neg_r _ (i - lo)) by lia. now rewrite andb_false_r.
Qed.

Lemma land_mask_bounds (x lo hi : Z) :
  0 <= lo <= hi ->
  0 <= Z.land x (2 ^ hi - 2 ^ lo) <= 2 ^ hi - 2 ^ lo
  /\ Z.land x (2 ^ hi - 2 ^ lo) mod 2 ^ lo = 0.
Proof.
  intros Hlh. rewrite land_mask_shape by assumption.
  assert (Hlo : 0 < 2 ^ lo) by (apply Z.pow_pos_nonneg; lia).
  assert (Hd : 0 < 2 ^ (hi - lo)) by (apply Z.pow_pos_nonneg; lia).
  assert (Hp : 2 ^ hi = 2 ^ (hi - lo) * 2 ^ lo).
  { rewrite <- Z.pow_add_r by lia. f_equal. lia. }
  pose proof (Z.mod_pos_bound (x / 2 ^ lo) (2 ^ (hi - lo)) Hd) as Hm.
  split; [nia | apply Z.mod_mul; lia].
Qed.

Lemma index_bounds (vaddr k : Z) : 0 <= Z.land (Z.shiftr vaddr k) 0x1FF < 512.
Proof.
  change 0x1FF with (Z.ones 9). rewrite Z.land_ones by lia.
  apply Z.mod_pos_bound. reflexivity.
Qed.

(** An entry address is 8-byte aligned, lies in the 4 KiB table at its base
    and below [2 ^ 48]. *)
Lemma entry_addr_bounds (x vaddr k : Z) :
  let base := Z.land x 0xFFFFFFFFF000 in
  let address := base + Z.land (Z.shiftr vaddr k) 0x1FF * entry_size in
  0 <= address < 2 ^ 48 /\ address mod 8 = 0
  /\ base <= address <= base + 4088 /\ base mod 4096 = 0.
Proof.
  intros base address. subst base address.
  change 0xFFFFFFFFF000 with (2 ^ 48 - 2 ^ 12).
  destruct (land_mask_bounds x 12 48) as [Hb Hm]; [lia | ].
  pose proof (index_bounds vaddr k) as Hi.
  set (b := Z.land x (2 ^ 48 - 2 ^ 12)) in *.
  set (i := Z.land (Z.shiftr vaddr k) 0x1FF) in *.
  unfold entry_size. change (2 ^ 12) with 4096 in *.
  change (2 ^ 48) with 281474976710656 in *.
  repeat split; try lia.
  apply Z.mod_divide in Hm; [ | lia]. destruct Hm as [q Hq].
  rewrite Hq. replace (q * 4096 + i * 8) with ((q * 512 + i) * 8) by lia.
  apply Z.mod_mul. lia.
Qed.

(** A frame base plus an offset: the offset is kept and the sum stays below
    [2 ^ hi]. *)
Lemma frame_plus_offset (e v lo hi : Z) :
  0 <= lo <= hi ->
  let p := Z.land e (2 ^ hi - 2 ^ lo) + Z.land v (2 ^ lo - 1) in
  p mod 2 ^ lo = v mod 2 ^ lo /\ 0 <= p < 2 ^ hi.
Proof.
  intros Hlh p. subst p.
  destruct (land_mask_bounds e lo hi Hlh) as [Hb Hm].
  assert (Hlo : 0 < 2 ^ lo) by (apply Z.pow_pos_nonneg; lia).
  replace (2 ^ lo - 1) with (Z.ones lo) by (rewrite Z.ones_equiv; lia).
  rewrite Z.land_ones by lia.
  pose proof (Z.mod_pos_bound v (2 ^ lo) Hlo) as Hv.
  split; [ | lia].
  rewrite Z.add_mod, Hm, Z.add_0_l, !Z.mod_mod by lia. reflexivity.
Qed.

(** Where bits 51:48 of a value are clear, the masks of the script keep
    what the masks up to bit 51 keep. *)
Lemma mask_47_51 (v lo : Z) :
  0 <= lo <= 48 ->
  Z.land v (2 ^ 52 - 2 ^ 48) = 0 ->
  Z.land v (2 ^ 48 - 2 ^ lo) = Z.land v (2 ^ 52 - 2 ^ lo).
Proof.
  intros Hlo Hclear. apply Z.bits_inj'. intros i Hi.
  rewrite !mask_bit by lia.
  destruct (Z.ltb_spec i 48), (Z.ltb_spec i 52); try lia; try reflexivity.
  assert (Hb : Z.testbit (Z.land v (2 ^ 52 - 2 ^ 48)) i = false)
    by (rewrite Hclear; apply Z.bits_0).
  rewrite mask_bit in Hb by lia.
  destruct (Z.leb_spec 48 i), (Z.ltb_spec i 52); try lia.
  rewrite !andb_true_r in Hb. rewrite Hb. reflexivity.
Qed.

(** Two addresses of the same 4 KiB page have the same fields above the
    offset, and their offsets within a page differ as the addresses do. *)
Lemma same_page_shift (v1 v2 k : Z) :
  12 <= k -> Z.shiftr v1 12 = Z.shiftr v2 12 -> Z.shiftr v1 k = Z.shiftr v2 k.
Proof.
  intros Hk H. replace k with (12 + (k - 12)) by lia.
  rewrite <- !Z.shiftr_shiftr by lia. now rewrite H.
Qed.

Lemma same_page_offset (v1 v2 k : Z) :
  12 <= k -> Z.shiftr v1 12 = Z.shiftr v2 12 ->
  Z.land v2 (2 ^ k - 1) - Z.land v1 (2 ^ k - 1) = v2 - v1.
Proof.
  intros Hk H. apply (same_page_shift v1 v2 k Hk) in H.
  rewrite !Z.shiftr_div_pow2 in H by lia.
  assert (Hpos : 0 < 2 ^ k) by (apply Z.pow_pos_nonneg; lia).
  replace (2 ^ k - 1) with (Z.ones k) by (rewrite Z.ones_equiv; lia).
  rewrite !Z.land_ones by lia.
  pose proof (Z.div_mod v1 (2 ^ k)) as H1. pose proof (Z.div_mod v2 (2 ^ k)) as H2.
  rewrite H in H1. lia.
Qed.

(** The bits of an entry, byte by byte. *)
Lemma byte_value_bounds (b : byte) : 0 <= Z.of_N (Byte.to_N b) < 256.
Proof. pose proof (Byte.to_N_bounded b). lia. Qed.

Lemma int_from_bytes_little_bounds (mem : list byte) :
  0 <= int_from_bytes_little mem < 2 ^ (8 * Z.of_nat (List.length mem)).
Proof.
  induction mem as [ | b rest IH]; [cbn; lia | ].
  cbn [int_from_bytes_little List.length].
  replace (8 * Z.of_nat (S (List.length rest)))
    with (8 + 8 * Z.of_nat (List.length rest)) by lia.
  rewrite Z.pow_add_r by lia. change (2 ^ 8) with 256.
  pose proof (byte_value_bounds b). nia.
Qed.

Lemma int_from_bytes_little_bit (mem : list byte) :
  forall k j : nat,
    (k < List.length mem)%nat -> (j < 8)%nat ->
    Z.testbit (int_from_bytes_little mem) (8 * Z.of_nat k + Z.of_nat j)
    = Z.testbit (Z.of_N (Byte.to_N (nth k mem x00))) (Z.of_nat j).
Proof.
  induction mem as [ | b rest IH]; intros k j Hk Hj; [cbn in Hk; lia | ].
  cbn [int_from_bytes_little].
  pose proof (byte_value_bounds b) as Hb.
  replace (Z.of_N (Byte.to_N b) + 256 * int_from_bytes_little rest)
    with (Z.of_N (Byte.to_N b) + int_from_bytes_little rest * 2 ^ 8) by (change (2 ^ 8) with 256; lia).
  destruct k as [ | k].
  - cbn [nth]. replace (8 * Z.of_nat 0 + Z.of_nat j) with (Z.of_nat j) by lia.
    rewrite <- (Z.mod_pow2_bits_low _ 8) by lia.
    rewrite Z.mod_add by (change (2 ^ 8) with 256; lia).
    rewrite Z.mod_small by (change (2 ^ 8) with 256; lia). reflexivity.
  - cbn [nth List.length] in *.
    rewrite <- (IH k j) by lia.
    replace (8 * Z.of_nat (S k) + Z.of_nat j) with (8 * Z.of_nat k + Z.of_nat j + 8) by lia.
    rewrite <- Z.div_pow2_bits by lia.
    rewrite Z.div_add by (change (2 ^ 8) with 256; lia).
    rewrite Z.div_small by (change (2 ^ 8) with 256; lia). reflexivity.
Qed.

End Bits.

(** ** The address decoder *)

(** C5. For every virtual address the indices are its bit fields 47:39,
    38:30, 29:21 and 20:12, nine bits each, the offset is its bits 11:0, and
    [pml4<<39 | pdpt<<30 | pd<<21 | pt<<12 | offset] is the address reduced to
    its low 48 bits. *)
Theorem decoder_fields_reassemble (vaddr : Z) :
  (forall i : nat,
     Z.testbit (pml4_index vaddr) (Z.of_nat i)
     = (Nat.ltb i 9 && Z.testbit vaddr (Z.of_nat i + 39))%bool)
  /\ (forall i : nat,
     Z.testbit (pdpt_index vaddr) (Z.of_nat i)
     = (Nat.ltb i 9 && Z.testbit vaddr (Z.of_nat i + 30))%bool)
  /\ (forall i : nat,
     Z.testbit (pd_index vaddr) (Z.of_nat i)
     = (Nat.ltb i 9 && Z.testbit vaddr (Z.of_nat i + 21))%bool)
  /\ (forall i : nat,
     Z.testbit (pt_index vaddr) (Z.of_nat i)
     = (Nat.ltb i 9 && Z.testbit vaddr (Z.of_nat i + 12))%bool)
  /\ (forall i : nat,
     Z.testbit (page_offset vaddr) (Z.of_nat i)
     = (Nat.ltb i 12 && Z.testbit vaddr (Z.of_nat i))%bool)
  /\ 0 <= pml4_index vaddr < 2 ^ 9 /\ 0 <= pdpt_index vaddr < 2 ^ 9
  /\ 0 <= pd_index vaddr < 2 ^ 9 /\ 0 <= pt_index vaddr < 2 ^ 9
  /\ 0 <= page_offset vaddr < 2 ^ 12
  /\ Z.lor (Z.lor (Z.lor (Z.lor (Z.shiftl (pml4_index vaddr) 39)
                                (Z.shiftl (pdpt_index vaddr) 30))
                         (Z.shiftl (pd_index vaddr) 21))
                  (Z.shiftl (pt_index vaddr) 12))
           (page_offset vaddr)
     = Z.land vaddr (2 ^ 48 - 1).
Proof.
  unfold pml4_index, pdpt_index, pd_index, pt_index, page_offset.
  change 0x1FF with (Z.ones 9). change 0xFFF with (Z.ones 12).
  change (2 ^ 48 - 1) with (Z.ones 48).
  repeat match goal with |- _ /\ _ => split end;
    try (intros i;
         rewrite Z.land_spec, ?Z.shiftr_spec, Z.testbit_ones_nonneg by lia;
         rewrite andb_comm; f_equal;
         destruct (Z.ltb_spec (Z.of_nat i) 9), (Nat.ltb_spec i 9);
         destruct (Z.ltb_spec (Z.of_nat i) 12), (Nat.ltb_spec i 12);
         (reflexivity || lia));
    try (rewrite Z.land_ones by lia; apply Z.mod_pos_bound; lia).
  apply Z.bits_inj'. intros i Hi.
  rewrite !Z.lor_spec, !field_bit, !Z.land_spec, !Z.testbit_ones_nonneg by lia.
  destruct (Z.testbit vaddr i); rewrite ?andb_true_r, ?andb_false_r;
    [ | reflexivity].
  repeat match goal with
         | |- context [?a <=? ?b] => destruct (Z.leb_spec a b)
         | |- context [?a <? ?b] => destruct (Z.ltb_spec a b)
         end; simpl; try reflexivity; lia.
Qed.

(** ** Entries and masks *)

(** X11. The entry is the little-endian number of the bytes read: byte [k]
    holds its bits [8k] to [8k+7], and the entry is not negative and below
    256 to the number of bytes (2^64 for the 8 bytes of an entry).  So the
    present and the huge-page tests of the script look at bits 0 and 7 of the
    first byte. *)
Theorem entry_is_little_endian (mem : list byte) (k j : nat) :
  (k < List.length mem)%nat -> (j < 8)%nat ->
  Z.testbit (int_from_bytes_little mem) (8 * Z.of_nat k + Z.of_nat j)
  = Z.testbit (Z.of_N (Byte.to_N (nth k mem x00))) (Z.of_nat j)
  /\ 0 <= int_from_bytes_little mem < 2 ^ (8 * Z.of_nat (List.length mem))
  /\ not_present (int_from_bytes_little mem)
     = negb (Z.testbit (Z.of_N (Byte.to_N (nth 0 mem x00))) 0)
  /\ huge_bit (int_from_bytes_little mem)
     = Z.testbit (Z.of_N (Byte.to_N (nth 0 mem x00))) 7.
Proof.
  intros Hk Hj. split; [now apply int_from_bytes_little_bit | ].
  split; [apply int_from_bytes_little_bounds | ].
  rewrite not_present_bit0, huge_bit_bit7.
  split; [f_equal | ].
  - apply (int_from_bytes_little_bit mem 0 0); lia.
  - apply (int_from_bytes_little_bit mem 0 7); lia.
Qed.

(** X12. For a register value or an entry whose bits 51:48 are clear, the
    table bases and the 4 KiB and 2 MiB frames that the script computes are
    the value masked to bits 51:12, respectively 51:21: the masks of the
    script, which stop at bit 47, lose nothing of such a value. *)
Theorem masks_keep_values_below_bit_48 (v : Z) :
  Z.land v (2 ^ 52 - 2 ^ 48) = 0 ->
  pml4_base v = Z.land v (2 ^ 52 - 2 ^ 12)
  /\ pdpt_base v = Z.land v (2 ^ 52 - 2 ^ 12)
  /\ pd_base v = Z.land v (2 ^ 52 - 2 ^ 12)
  /\ pt_base v = Z.land v (2 ^ 52 - 2 ^ 12)
  /\ page_base v = Z.land v (2 ^ 52 - 2 ^ 12)
  /\ forall vaddr,
       phys_addr_2mb v vaddr = Z.land v (2 ^ 52 - 2 ^ 21) + Z.land vaddr 0x1FFFFF.
Proof.
  intros Hclear.
  pose proof (mask_47_51 v 12 ltac:(lia) Hclear) as H12.
  pose proof (mask_47_51 v 21 ltac:(lia) Hclear) as H21.
  unfold pml4_base, pdpt_base, pd_base, pt_base, page_base, phys_addr_2mb.
  change 0xFFFFFFFFF000 with (2 ^ 48 - 2 ^ 12).
  change 0xFFFFFFE00000 with (2 ^ 48 - 2 ^ 21).
  rewrite H12, H21. repeat split.
Qed.

(** ** The walk *)

Section Walk.

Context {World : Type} {gdb : Gdb World}.

(** Runs the script along the answers found among the hypotheses. *)
Ltac run :=
  cbv [bind try_except parse_and_eval_int print ret read_entry read_memory];
  repeat (cbn [negb];
          first [ match goal with
                  | H : gdb_parse_and_eval_int _ _ = _ |- _ => rewrite H
                  | H : inferior_read_memory _ _ _ = _ |- _ => rewrite H
                  end
                | rewrite not_present_bit0
                | rewrite huge_bit_bit7
                | match goal with H : Z.testbit _ _ = _ |- _ => rewrite H end ]);
  cbn [negb app].

Ltac start :=
  match goal with
  | H : begins _ _ _ _ _ |- _ =>
      let a := fresh "a" in
      let Hargv := fresh "Hargv" in
      let Hint := fresh "Hint" in
      let Hcr3 := fresh "Hcr3" in
      destruct H as (a & Hargv & Hint & Hcr3);
      unfold ptwalk; rewrite Hargv, Hint
  end.

Ltac entries :=
  repeat match goal with
         | H : reads_entry _ _ _ _ |- _ =>
             let mem := fresh "mem" in
             let Hread := fresh "Hread" in
             destruct H as (mem & Hread & <-)
         end.

Lemma walk_4kb_events arg (w0 : World) vaddr cr3_val w1 e1 w2 e2 w3 e3 w4 e4 w5 :
  begins arg w0 vaddr cr3_val w1 ->
  reads_entry w1 (pml4_entry_addr cr3_val vaddr) e1 w2 ->
  Z.testbit e1 0 = true ->
  reads_entry w2 (pdpt_entry_addr e1 vaddr) e2 w3 ->
  Z.testbit e2 0 = true -> Z.testbit e2 7 = false ->
  reads_entry w3 (pd_entry_addr e2 vaddr) e3 w4 ->
  Z.testbit e3 0 = true -> Z.testbit e3 7 = false ->
  reads_entry w4 (pt_entry_addr e3 vaddr) e4 w5 ->
  Z.testbit e4 0 = true ->
  ptwalk arg w0
  = (Ok tt, w5,
     preamble vaddr cr3_val
     ++ visit PML4 (pml4_entry_addr cr3_val vaddr) e1
     ++ visit PDPT (pdpt_entry_addr e1 vaddr) e2
     ++ visit PD (pd_entry_addr e2 vaddr) e3
     ++ visit PT (pt_entry_addr e3 vaddr) e4
     ++ [EvPrint (PhysicalAddressIs (phys_addr_4kb e4 vaddr))]).
Proof.
  intros Hb H1 P1 H2 P2 G2 H3 P3 G3 H4 P4.
  start. entries. run. reflexivity.
Qed.

Lemma walk_1gb_events arg (w0 : World) vaddr cr3_val w1 e1 w2 e2 w3 :
  begins arg w0 vaddr cr3_val w1 ->
  reads_entry w1 (pml4_entry_addr cr3_val vaddr) e1 w2 ->
  Z.testbit e1 0 = true ->
  reads_entry w2 (pdpt_entry_addr e1 vaddr) e2 w3 ->
  Z.testbit e2 0 = true -> Z.testbit e2 7 = true ->
  ptwalk arg w0
  = (Ok tt, w3,
     preamble vaddr cr3_val
     ++ visit PML4 (pml4_entry_addr cr3_val vaddr) e1
     ++ visit PDPT (pdpt_entry_addr e1 vaddr) e2
     ++ [EvPrint PageDetected1GB;
         EvPrint (PhysicalAddressIs (phys_addr_1gb e2 vaddr))]).
Proof.
  intros Hb H1 P1 H2 P2 G2.
  start. entries. run. reflexivity.
Qed.

Lemma walk_2mb_events arg (w0 : World) vaddr cr3_val w1 e1 w2 e2 w3 e3 w4 :
  begins arg w0 vaddr cr3_val w1 ->
  reads_entry w1 (pml4_entry_addr cr3_val vaddr) e1 w2 ->
  Z.testbit e1 0 = true ->
  reads_entry w2 (pdpt_entry_addr e1 vaddr) e2 w3 ->
  Z.testbit e2 0 = true -> Z.testbit e2 7 = false ->
  reads_entry w3 (pd_entry_addr e2 vaddr) e3 w4 ->
  Z.testbit e3 0 = true -> Z.testbit e3 7 = true ->
  ptwalk arg w0
  = (Ok tt, w4,
     preamble vaddr cr3_val
     ++ visit PML4 (pml4_entry_addr cr3_val vaddr) e1
     ++ visit PDPT (pdpt_entry_addr e1 vaddr) e2
     ++ visit PD (pd_entry_addr e2 vaddr) e3
     ++ [EvPrint PageDetected2MB;
         EvPrint (PhysicalAddressIs (phys_addr_2mb e3 vaddr))]).
Proof.
  intros Hb H1 P1 H2 P2 G2 H3 P3 G3.
  start. entries. run. reflexivity.
Qed.

(** X17. Whenever the PML4, PDPT, PD and PT entries are all read
    successfully, all have bit 0 set, and the PDPT and PD entries have bit 7
    clear, the walk returns having read exactly four entries, one per table
    and in order, having printed exactly four entry records, and ending with
    the physical address that the script computes for a 4 KiB page: the PT
    entry masked with 0xFFFFFFFFF000, plus bits 11:0 of the virtual address.
    The masked entry keeps bits 47:12 of the entry and nothing else: its low
    12 bits are clear, and so are its bits 48 and up, among them bits 51:48
    of the frame.  No huge page is announced. *)
Theorem full_walk_4kb arg (w0 : World) vaddr cr3_val w1 e1 w2 e2 w3 e3 w4 e4 w5 :
  begins arg w0 vaddr cr3_val w1 ->
  reads_entry w1 (pml4_entry_addr cr3_val vaddr) e1 w2 ->
  Z.testbit e1 0 = true ->
  reads_entry w2 (pdpt_entry_addr e1 vaddr) e2 w3 ->
  Z.testbit e2 0 = true -> Z.testbit e2 7 = false ->
  reads_entry w3 (pd_entry_addr e2 vaddr) e3 w4 ->
  Z.testbit e3 0 = true -> Z.testbit e3 7 = false ->
  reads_entry w4 (pt_entry_addr e3 vaddr) e4 w5 ->
  Z.testbit e4 0 = true ->
  exists evs,
    ptwalk arg w0 = (Ok tt, w5, evs)
    /\ memory_reads evs
       = [ pml4_entry_addr cr3_val vaddr; pdpt_entry_addr e1 vaddr;
           pd_entry_addr e2 vaddr; pt_entry_addr e3 vaddr ]
    /\ trace evs
       = [ (PML4, pml4_entry_addr cr3_val vaddr, e1);
           (PDPT, pdpt_entry_addr e1 vaddr, e2);
           (PD, pd_entry_addr e2 vaddr, e3);
           (PT, pt_entry_addr e3 vaddr, e4) ]
    /\ outcome_of evs
       = Some (Translated (Z.land e4 0xFFFFFFFFF000 + Z.land vaddr (2 ^ 12 - 1)) Page4KB)
    /\ (forall i : nat,
          Z.testbit (Z.land e4 0xFFFFFFFFF000) (Z.of_nat i)
          = (Z.testbit e4 (Z.of_nat i) && (12 <=? Z.of_nat i) && (Z.of_nat i <? 48))%bool).
Proof.
  intros Hb H1 P1 H2 P2 G2 H3 P3 G3 H4 P4.
  eexists. split; [ | split; [ | split; [ | split]]].
  - eapply walk_4kb_events; eassumption.
  - reflexivity.
  - reflexivity.
  - reflexivity.
  - intros i. change 0xFFFFFFFFF000 with (2 ^ 48 - 2 ^ 12). apply mask_bit; lia.
Qed.

(** C2. Whenever the PDPT entry is read successfully with bits 0 and 7 set
    (after a present PML4 entry), the walk returns with a 1 GiB page at
    (PDPT entry masked to bits 51:30) + (virtual address & 0x3FFFFFFF),
    having read memory twice only, for the PML4 and the PDPT entry: the PD
    and the PT are not read. *)
Theorem huge_page_1gb arg (w0 : World) vaddr cr3_val w1 e1 w2 e2 w3 :
  begins arg w0 vaddr cr3_val w1 ->
  reads_entry w1 (pml4_entry_addr cr3_val vaddr) e1 w2 ->
  Z.testbit e1 0 = true ->
  reads_entry w2 (pdpt_entry_addr e1 vaddr) e2 w3 ->
  Z.testbit e2 0 = true -> Z.testbit e2 7 = true ->
  exists evs,
    ptwalk arg w0 = (Ok tt, w3, evs)
    /\ outcome_of evs
       = Some (Translated (Z.land e2 (2 ^ 52 - 2 ^ 30) + Z.land vaddr 0x3FFFFFFF) Page1GB)
    /\ memory_reads evs = [ pml4_entry_addr cr3_val vaddr; pdpt_entry_addr e1 vaddr ]
    /\ trace evs
       = [ (PML4, pml4_entry_addr cr3_val vaddr, e1);
           (PDPT, pdpt_entry_addr e1 vaddr, e2) ].
Proof.
  intros Hb H1 P1 H2 P2 G2.
  eexists. split; [ | split; [ | split]].
  - eapply walk_1gb_events; eassumption.
  - reflexivity.
  - reflexivity.
  - reflexivity.
Qed.

Ltac invert_arrives :=
  repeat match goal with
         | H : arrives _ _ _ _ _ _ _ |- _ => inversion H; subst; clear H
         end.

(** C6. For each table [l]: whenever every earlier table gave a present,
    non-huge entry and the entry read for [l] has bit 0 clear, the walk
    returns with the complaint that the entry of [l] is not present, its
    records are those of the tables from the PML4 down to [l], one each, and
    memory was read for those tables only. *)
Theorem absent_entry_aborts arg (w0 : World) vaddr cr3_val w1 l address w records entry w' :
  begins arg w0 vaddr cr3_val w1 ->
  arrives vaddr cr3_val w1 l address w records ->
  reads_entry w address entry w' ->
  Z.testbit entry 0 = false ->
  exists evs,
    ptwalk arg w0 = (Ok tt, w', evs)
    /\ outcome_of evs = Some (AbsentAt l)
    /\ trace evs = records ++ [(l, address, entry)]
    /\ map (fun r => fst (fst r)) (trace evs) = levels_upto l
    /\ memory_reads evs = map (fun r => snd (fst r)) (trace evs)
    /\ List.length (memory_reads evs) = depth l
    /\ last evs (EvPrint Usage) = EvPrint (EntryNotPresent l).
Proof.
  intros Hb Ha Hr Hbit.
  destruct l; invert_arrives; start; entries; run;
    (eexists; split; [reflexivity | repeat split]).
Qed.

(** Splits a run of the script into the cases of what the session answers. *)
Ltac cases :=
  cbv [ptwalk bind try_except parse_and_eval_int print ret read_entry read_memory];
  repeat (cbn [negb app];
          match goal with
          | |- context [gdb_string_to_argv ?a] =>
              destruct (gdb_string_to_argv a) as [ | ? [ | ? ? ] ] eqn:?
          | |- context [PyInt.int0 ?m ?a] => destruct (PyInt.int0 m a) eqn:?
          | |- context [gdb_parse_and_eval_int ?e ?w] =>
              destruct (gdb_parse_and_eval_int e w) as [ [ ? | ? | ] ? ] eqn:?
          | |- context [inferior_read_memory ?a ?n ?w] =>
              destruct (inferior_read_memory a n w) as [ [ ? | ? | ] ? ] eqn:?
          | |- context [not_present ?e] => destruct (not_present e) eqn:?
          | |- context [huge_bit ?e] => destruct (huge_bit e) eqn:?
          end);
  cbn [negb app].

(** The walk catches every exception of class [Exception]: it returns, or an
    interrupt ends it; it does not touch the memory mode. *)
Lemma ptwalk_result arg (w : World) :
  exists r w' evs,
    ptwalk arg w = (r, w', evs)
    /\ (r = Ok tt \/ r = Interrupt)
    /\ forallb (fun ev => negb (is_execute ev)) evs = true.
Proof.
  cases; do 3 eexists; (split; [reflexivity | split; [ | reflexivity]]); auto.
Qed.



(** X19. When the first packet is accepted and an interrupt ends the walk,
    the interrupt leaves [invoke] as well, which has no [finally]: the events
    of the command are the first packet and those of the walk, the second
    packet is not sent, and the physical memory mode stays enabled. *)
Theorem interrupt_skips_revert arg (w : World) w1 w2 middle :
  gdb_execute "maintenance packet Qqemu.PhyMemMode:1" w = (Ok tt, w1) ->
  ptwalk arg w1 = (Interrupt, w2, middle) ->
  invoke arg w
  = (Interrupt, w2, EvExecute "maintenance packet Qqemu.PhyMemMode:1" :: middle)
  /\ forallb (fun ev => negb (is_execute ev)) middle = true.
Proof.
  intros Henable Hwalk. unfold invoke, bind, execute. rewrite Henable, Hwalk.
  split; [reflexivity | ].
  destruct (ptwalk_result arg w1) as (r & w' & evs & Hrun & _ & Hquiet).
  rewrite Hwalk in Hrun. injection Hrun as _ _ <-. exact Hquiet.
Qed.

(** When the session refuses the first packet, the exception leaves
    [invoke]: nothing is read and the mode is not reverted. *)
Lemma physical_mode_refused arg (w : World) e w1 :
  gdb_execute "maintenance packet Qqemu.PhyMemMode:1" w = (Raise e, w1) ->
  invoke arg w = (Raise e, w1, [EvExecute "maintenance packet Qqemu.PhyMemMode:1"]).
Proof.
  intros H. unfold invoke, bind, execute. now rewrite H.
Qed.

(** An argument that [int] parses is walked, whatever the number. *)
Lemma parsed_address_walked arg a vaddr (w : World) :
  gdb_string_to_argv arg = [a] ->
  PyInt.int0 sys_int_max_str_digits a = Some vaddr ->
  ~ In (EvPrint InvalidAddress) (snd (ptwalk arg w))
  /\ register_reads (snd (ptwalk arg w)) = ["$cr3"%string]
  /\ (forall cr3_val w1,
        gdb_parse_and_eval_int "$cr3" w = (Ok cr3_val, w1) ->
        exists rest,
          snd (ptwalk arg w)
          = preamble vaddr cr3_val
            ++ EvReadMemory (pml4_entry_addr cr3_val vaddr) entry_size :: rest).
Proof.
  intros Hargv Hint. unfold ptwalk. rewrite Hargv, Hint.
  split; [ | split].
  - cases; cbn; intuition discriminate.
  - cases; reflexivity.
  - intros cr3_val w1 Hcr3.
    cbv [bind try_except parse_and_eval_int print ret read_entry read_memory].
    rewrite Hcr3. cases; eexists; reflexivity.
Qed.

(** Every table that the walk arrives at is read, after the records of the
    tables before it. *)
Lemma walk_reaches arg (w0 : World) vaddr cr3_val w1 l address w records :
  begins arg w0 vaddr cr3_val w1 ->
  arrives vaddr cr3_val w1 l address w records ->
  exists rest,
    snd (ptwalk arg w0)
    = preamble vaddr cr3_val ++ visits records ++ EvReadMemory address entry_size :: rest.
Proof.
  intros Hb Ha.
  destruct l; invert_arrives; start; entries; run; cases; eexists; reflexivity.
Qed.

Lemma walk_failure_events arg (w0 : World) vaddr cr3_val w1 l address w records e w' :
  begins arg w0 vaddr cr3_val w1 ->
  arrives vaddr cr3_val w1 l address w records ->
  inferior_read_memory address entry_size w = (Raise e, w') ->
  ptwalk arg w0
  = (Ok tt, w',
     preamble vaddr cr3_val ++ visits records
     ++ [EvReadMemory address entry_size; EvPrint (FailedToRead address e)]).
Proof.
  intros Hb Ha Hfail.
  destruct l; invert_arrives; start; entries; run; reflexivity.
Qed.

Lemma walk_absent_events arg (w0 : World) vaddr cr3_val w1 l address w records entry w' :
  begins arg w0 vaddr cr3_val w1 ->
  arrives vaddr cr3_val w1 l address w records ->
  reads_entry w address entry w' ->
  Z.testbit entry 0 = false ->
  ptwalk arg w0
  = (Ok tt, w',
     preamble vaddr cr3_val ++ visits records
     ++ visit l address entry ++ [EvPrint (EntryNotPresent l)]).
Proof.
  intros Hb Ha Hr Hbit.
  destruct l; invert_arrives; start; entries; run; reflexivity.
Qed.

Lemma walk_huge_1gb_events arg (w0 : World) vaddr cr3_val w1 address w records entry w' :
  begins arg w0 vaddr cr3_val w1 ->
  arrives vaddr cr3_val w1 PDPT address w records ->
  reads_entry w address entry w' ->
  Z.testbit entry 0 = true -> Z.testbit entry 7 = true ->
  ptwalk arg w0
  = (Ok tt, w',
     preamble vaddr cr3_val ++ visits records ++ visit PDPT address entry
     ++ [EvPrint PageDetected1GB; EvPrint (PhysicalAddressIs (phys_addr_1gb entry vaddr))]).
Proof.
  intros Hb Ha Hr Hbit0 Hbit7.
  invert_arrives; start; entries; run; reflexivity.
Qed.

Lemma walk_huge_2mb_events arg (w0 : World) vaddr cr3_val w1 address w records entry w' :
  begins arg w0 vaddr cr3_val w1 ->
  arrives vaddr cr3_val w1 PD address w records ->
  reads_entry w address entry w' ->
  Z.testbit entry 0 = true -> Z.testbit entry 7 = true ->
  ptwalk arg w0
  = (Ok tt, w',
     preamble vaddr cr3_val ++ visits records ++ visit PD address entry
     ++ [EvPrint PageDetected2MB; EvPrint (PhysicalAddressIs (phys_addr_2mb entry vaddr))]).
Proof.
  intros Hb Ha Hr Hbit0 Hbit7.
  invert_arrives; start; entries; run; reflexivity.
Qed.

Lemma walk_page_events arg (w0 : World) vaddr cr3_val w1 address w records entry w' :
  begins arg w0 vaddr cr3_val w1 ->
  arrives vaddr cr3_val w1 PT address w records ->
  reads_entry w address entry w' ->
  Z.testbit entry 0 = true ->
  ptwalk arg w0
  = (Ok tt, w',
     preamble vaddr cr3_val ++ visits records ++ visit PT address entry
     ++ [EvPrint (PhysicalAddressIs (phys_addr_4kb entry vaddr))]).
Proof.
  intros Hb Ha Hr Hbit0.
  invert_arrives; start; entries; run; reflexivity.
Qed.

(** C10. An argument that [int] parses to a number outside [0, 2^64), a
    negative one or one of 2^64 or more, is not refused as an invalid
    address: the register is read, and when that read succeeds the number is
    echoed as the virtual address, its fields are printed, and the tables are
    walked with the number as the virtual address.  The PML4 entry is read at
    the address computed from the number, and so is the entry of every table
    that the walk arrives at, after present entries without bit 7.  There,
    an entry that cannot be read, or that is not present,
    ends the walk with the complaint for that table; a present PDPT or PD
    entry with bit 7 ends it with the address of the 1 GiB or 2 MiB page, and
    a present PT entry with the address of the 4 KiB page, each computed from
    the entry and the number. *)
Theorem out_of_range_address_walked arg a vaddr (w : World) :
  gdb_string_to_argv arg = [a] ->
  PyInt.int0 sys_int_max_str_digits a = Some vaddr ->
  ~ (0 <= vaddr < 2 ^ 64) ->
  ~ In (EvPrint InvalidAddress) (snd (ptwalk arg w))
  /\ register_reads (snd (ptwalk arg w)) = ["$cr3"%string]
  /\ (forall cr3_val w1,
        gdb_parse_and_eval_int "$cr3" w = (Ok cr3_val, w1) ->
        (exists rest,
           snd (ptwalk arg w)
           = preamble vaddr cr3_val
             ++ EvReadMemory (pml4_entry_addr cr3_val vaddr) entry_size :: rest)
        /\ (forall l address w2 records,
              arrives vaddr cr3_val w1 l address w2 records ->
              (exists rest,
                 snd (ptwalk arg w)
                 = preamble vaddr cr3_val ++ visits records
                   ++ EvReadMemory address entry_size :: rest)
              /\ (forall e w3,
                    inferior_read_memory address entry_size w2 = (Raise e, w3) ->
                    ptwalk arg w
                    = (Ok tt, w3,
                       preamble vaddr cr3_val ++ visits records
                       ++ [EvReadMemory address entry_size;
                           EvPrint (FailedToRead address e)]))
              /\ (forall entry w3,
                    reads_entry w2 address entry w3 ->
                    Z.testbit entry 0 = false ->
                    ptwalk arg w
                    = (Ok tt, w3,
                       preamble vaddr cr3_val ++ visits records
                       ++ visit l address entry ++ [EvPrint (EntryNotPresent l)]))
              /\ (forall entry w3,
                    reads_entry w2 address entry w3 ->
                    Z.testbit entry 0 = true -> Z.testbit entry 7 = true ->
                    l = PDPT ->
                    ptwalk arg w
                    = (Ok tt, w3,
                       preamble vaddr cr3_val ++ visits records
                       ++ visit l address entry
                       ++ [EvPrint PageDetected1GB;
                           EvPrint (PhysicalAddressIs (phys_addr_1gb entry vaddr))]))
              /\ (forall entry w3,
                    reads_entry w2 address entry w3 ->
                    Z.testbit entry 0 = true -> Z.testbit entry 7 = true ->
                    l = PD ->
                    ptwalk arg w
                    = (Ok tt, w3,
                       preamble vaddr cr3_val ++ visits records
                       ++ visit l address entry
                       ++ [EvPrint PageDetected2MB;
                           EvPrint (PhysicalAddressIs (phys_addr_2mb entry vaddr))]))
              /\ (forall entry w3,
                    reads_entry w2 address entry w3 ->
                    Z.testbit entry 0 = true ->
                    l = PT ->
                    ptwalk arg w
                    = (Ok tt, w3,
                       preamble vaddr cr3_val ++ visits records
                       ++ visit l address entry
                       ++ [EvPrint (PhysicalAddressIs (phys_addr_4kb entry vaddr))])))).
Proof.
  intros Hargv Hint _.
  destruct (parsed_address_walked arg a vaddr w Hargv Hint) as (Hvalid & Hreg & Hfirst).
  split; [exact Hvalid | split; [exact Hreg | ]].
  intros cr3_val w1 Hcr3. split; [now apply Hfirst with w1 | ].
  assert (Hb : begins arg w vaddr cr3_val w1) by (exists a; auto).
  intros l address w2 records Ha.
  split; [eapply walk_reaches; eassumption | ].
  split; [intros e w3 Hfail; eapply walk_failure_events; eassumption | ].
  split; [intros entry w3 Hr Hbit; eapply walk_absent_events; eassumption | ].
  split; [ | split].
  - intros entry w3 Hr Hbit0 Hbit7 ->. eapply walk_huge_1gb_events; eassumption.
  - intros entry w3 Hr Hbit0 Hbit7 ->. eapply walk_huge_2mb_events; eassumption.
  - intros entry w3 Hr Hbit0 ->. eapply walk_page_events; eassumption.
Qed.

(** C7, amended. The argument is read as [int] reads a text: every
    Unicode white space counts as a space and every Unicode decimal digit as
    the ASCII digit of its value.  Read so, the argument is accepted when it
    is an integer literal: decimal, or hexadecimal, octal or binary after the
    prefix 0x, 0o or 0b, with an optional sign, white space around it and
    single underscores between its digits, and, for a decimal one, not longer
    than the interpreter's limit on decimal texts; the register is then
    read.  For every other argument the command prints that the address is
    invalid and returns without any call to the session: no register read,
    no memory read. *)
Theorem invalid_address_iff_no_literal arg a (w : World) :
  gdb_string_to_argv arg = [a] ->
  ((exists f,
      Literal.literal f (PyInt.PyUnicode_TransformDecimalAndSpaceToASCII a)
      /\ ~ Literal.exceeds sys_int_max_str_digits f
             (PyInt.PyUnicode_TransformDecimalAndSpaceToASCII a)) ->
   ~ In (EvPrint InvalidAddress) (snd (ptwalk arg w))
   /\ register_reads (snd (ptwalk arg w)) = ["$cr3"%string])
  /\ (~ (exists f,
           Literal.literal f (PyInt.PyUnicode_TransformDecimalAndSpaceToASCII a)
           /\ ~ Literal.exceeds sys_int_max_str_digits f
                  (PyInt.PyUnicode_TransformDecimalAndSpaceToASCII a)) ->
      ptwalk arg w = (Ok tt, w, [EvPrint InvalidAddress])).
Proof.
  intros Hargv. split.
  - intros Hlit. apply PyIntFacts.int0_accepts in Hlit. destruct Hlit as [vaddr Hint].
    destruct (parsed_address_walked arg a vaddr w Hargv Hint) as (Hvalid & Hreg & _).
    split; assumption.
  - intros Hnot.
    destruct (PyInt.int0 sys_int_max_str_digits a) as [vaddr | ] eqn:Hint.
    + exfalso. apply Hnot. apply PyIntFacts.int0_accepts. now exists vaddr.
    + unfold ptwalk. now rewrite Hargv, Hint.
Qed.

(** *** The ways a walk fails *)

(** X1. With no argument, or with more than one, the command prints its
    usage and returns: the argument is not parsed and the session is not
    called at all. *)
Theorem wrong_argument_count arg (w : World) :
  List.length (gdb_string_to_argv arg) <> 1%nat ->
  ptwalk arg w = (Ok tt, w, [EvPrint Usage]).
Proof.
  intros Hlen. unfold ptwalk.
  destruct (gdb_string_to_argv arg) as [ | a [ | b rest]]; cbn in Hlen;
    [reflexivity | contradiction | reflexivity].
Qed.

(** X2. When the argument is a number and the read of the register raises,
    the command prints the error with the message of the exception and
    returns: memory is not read. *)
Theorem register_failure arg a vaddr (w : World) e w1 :
  gdb_string_to_argv arg = [a] ->
  PyInt.int0 sys_int_max_str_digits a = Some vaddr ->
  gdb_parse_and_eval_int "$cr3" w = (Raise e, w1) ->
  ptwalk arg w = (Ok tt, w1, [EvParseAndEval "$cr3"; EvPrint (ErrorReadingCR3 e)])
  /\ memory_reads (snd (ptwalk arg w)) = []
  /\ outcome_of (snd (ptwalk arg w)) = Some RegisterUnavailable.
Proof.
  intros Hargv Hint Hcr3.
  assert (Hrun : ptwalk arg w
                 = (Ok tt, w1, [EvParseAndEval "$cr3"; EvPrint (ErrorReadingCR3 e)])).
  { unfold ptwalk. rewrite Hargv, Hint. run. reflexivity. }
  rewrite Hrun. repeat split.
Qed.

(** X3. For each table [l]: whenever every earlier table gave a present,
    non-huge entry and the read of the entry of [l] raises, the walk prints
    that it failed to read memory at the address of that entry, with the
    message of the exception, and returns.  The table [l] gets no record: the
    records are those of the earlier tables; memory was read for the tables
    down to [l] and for no later one. *)
Theorem read_failure_aborts arg (w0 : World) vaddr cr3_val w1 l address w records e w' :
  begins arg w0 vaddr cr3_val w1 ->
  arrives vaddr cr3_val w1 l address w records ->
  inferior_read_memory address entry_size w = (Raise e, w') ->
  exists evs,
    ptwalk arg w0 = (Ok tt, w', evs)
    /\ outcome_of evs = Some (ReadFailedAt address)
    /\ trace evs = records
    /\ memory_reads evs = map (fun r => snd (fst r)) records ++ [address]
    /\ List.length (memory_reads evs) = depth l
    /\ last evs (EvPrint Usage) = EvPrint (FailedToRead address e).
Proof.
  intros Hb Ha Hr.
  destruct l; invert_arrives; start; entries; run;
    (eexists; split; [reflexivity | repeat split]).
Qed.

(** X4. Whenever the PD entry is read successfully with bits 0 and 7 set,
    after present PML4 and PDPT entries of which the second has bit 7 clear,
    the walk returns with a 2 MiB page at (PD entry & 0xFFFFFFE00000) +
    (virtual address & 0x1FFFFF), the mask being bits 47:21, having read
    memory three times: the PT is not read. *)
Theorem huge_page_2mb arg (w0 : World) vaddr cr3_val w1 e1 w2 e2 w3 e3 w4 :
  begins arg w0 vaddr cr3_val w1 ->
  reads_entry w1 (pml4_entry_addr cr3_val vaddr) e1 w2 ->
  Z.testbit e1 0 = true ->
  reads_entry w2 (pdpt_entry_addr e1 vaddr) e2 w3 ->
  Z.testbit e2 0 = true -> Z.testbit e2 7 = false ->
  reads_entry w3 (pd_entry_addr e2 vaddr) e3 w4 ->
  Z.testbit e3 0 = true -> Z.testbit e3 7 = true ->
  exists evs,
    ptwalk arg w0 = (Ok tt, w4, evs)
    /\ outcome_of evs
       = Some (Translated (Z.land e3 (2 ^ 48 - 2 ^ 21) + Z.land vaddr (2 ^ 21 - 1)) Page2MB)
    /\ memory_reads evs
       = [ pml4_entry_addr cr3_val vaddr; pdpt_entry_addr e1 vaddr;
           pd_entry_addr e2 vaddr ]
    /\ trace evs
       = [ (PML4, pml4_entry_addr cr3_val vaddr, e1);
           (PDPT, pdpt_entry_addr e1 vaddr, e2);
           (PD, pd_entry_addr e2 vaddr, e3) ].
Proof.
  intros Hb H1 P1 H2 P2 G2 H3 P3 G3.
  eexists. split; [ | split; [ | split]].
  - eapply walk_2mb_events; eassumption.
  - reflexivity.
  - reflexivity.
  - reflexivity.
Qed.

(** *** What holds of every run *)

Lemma entry_addr_fine (x vaddr k : Z) :
  let address := Z.land x 0xFFFFFFFFF000 + Z.land (Z.shiftr vaddr k) 0x1FF * entry_size in
  (0 <= address < 2 ^ 48 /\ address mod 8 = 0) /\ entry_size = 8.
Proof.
  cbv zeta. destruct (entry_addr_bounds x vaddr k) as (Hrange & Hmod & _).
  repeat split; try apply Hrange; exact Hmod.
Qed.

(** X5. Whatever the argument and the session, every memory read of the
    walk asks for 8 bytes at an address that is a multiple of 8, not
    negative and below 2^48, and there are at most four of them. *)
Theorem reads_are_aligned_entries arg (w : World) :
  Forall (fun call => (0 <= fst call < 2 ^ 48 /\ fst call mod 8 = 0) /\ snd call = 8)
    (read_calls (snd (ptwalk arg w)))
  /\ (List.length (read_calls (snd (ptwalk arg w))) <= 4)%nat.
Proof.
  split.
  - cases; cbn [snd read_calls app];
      repeat (apply Forall_cons || apply Forall_nil);
      apply entry_addr_fine.
  - cases; cbn [snd read_calls app List.length]; lia.
Qed.



(** X8. Whatever the argument and the session, the records of a run are
    those of the tables in the order PML4, PDPT, PD, PT, without gap or
    repetition; each record carries the address of the memory read that gave
    it, in the order of the reads; and at most one read, the last one, has no
    record. *)
Theorem records_follow_reads arg (w : World) :
  let evs := snd (ptwalk arg w) in
  map (fun r => fst (fst r)) (trace evs) = firstn (List.length (trace evs)) all_levels
  /\ map (fun r => snd (fst r)) (trace evs)
     = firstn (List.length (trace evs)) (memory_reads evs)
  /\ (List.length (trace evs) <= List.length (memory_reads evs)
      <= S (List.length (trace evs)))%nat.
Proof.
  cbv zeta. cases; cbn; repeat split; lia.
Qed.

(** X9. Whatever the argument and the session, every entry below which the
    walk went on (every record but that of the last read) had bit 0 set, and
    bit 7 clear if it was a PDPT or PD entry: the walk never reads a table
    through an entry that is not present or that maps a huge page. *)
Theorem only_present_entries_followed arg (w : World) :
  let evs := snd (ptwalk arg w) in
  Forall leads_on (firstn (List.length (memory_reads evs) - 1) (trace evs)).
Proof.
  cbv zeta. cases; cbn;
    repeat (apply Forall_cons || apply Forall_nil);
    unfold leads_on;
    repeat match goal with
           | H : not_present _ = _ |- _ => rewrite not_present_bit0 in H
           | H : huge_bit _ = _ |- _ => rewrite huge_bit_bit7 in H
           | H : negb ?b = false |- _ => apply negb_false_iff in H
           end;
    repeat split; assumption.
Qed.

(** X10. Whatever the session, when a run ends with a physical address, that
    address has the offset of the virtual address within the page (its low
    12, 21 or 30 bits for a page of 4 KiB, 2 MiB or 1 GiB), it is not
    negative and it is below 2^52, even for an argument that is negative or
    is 2^64 or more. *)
Theorem translation_keeps_offset arg a vaddr (w : World) phys_addr size :
  gdb_string_to_argv arg = [a] ->
  PyInt.int0 sys_int_max_str_digits a = Some vaddr ->
  outcome_of (snd (ptwalk arg w)) = Some (Translated phys_addr size) ->
  phys_addr mod page_bytes size = vaddr mod page_bytes size
  /\ 0 <= phys_addr < 2 ^ 52.
Proof.
  intros Hargv Hint. unfold ptwalk. rewrite Hargv, Hint.
  cases; cbn [snd app outcome_of outcome_from]; intros H;
    try discriminate H; injection H as <- <-; cbn [page_bytes];
    match goal with
    | |- context [phys_addr_1gb ?e ?v] =>
        pose proof (frame_plus_offset e v 30 52 ltac:(lia)) as Hframe
    | |- context [phys_addr_2mb ?e ?v] =>
        pose proof (frame_plus_offset e v 21 48 ltac:(lia)) as Hframe
    | |- context [phys_addr_4kb ?e ?v] =>
        pose proof (frame_plus_offset e v 12 48 ltac:(lia)) as Hframe
    end;
    cbv zeta in Hframe; destruct Hframe as [Hoff [Hlow Hhigh]];
    (split; [exact Hoff | split; [exact Hlow | ]]);
    (eapply Z.lt_le_trans; [exact Hhigh | vm_compute; discriminate]).
Qed.

(** *** The command as a whole *)

(** X13. The command is the walk between the two packets.  When the first
    packet is refused or interrupted, its exception leaves the command and
    nothing else happens (the argument is not looked at, nothing is read, no
    second packet).  Otherwise the walk runs.  When it returns, the second
    packet is sent in the session the walk left, and the command returns or
    raises as that packet does.  When an interrupt ends the walk, it leaves
    the command too and the second packet is not sent: the physical memory
    mode stays enabled.  No other exception leaves the walk. *)
Theorem invoke_is_walk_between_packets arg (w : World) :
  match gdb_execute "maintenance packet Qqemu.PhyMemMode:1" w with
  | (Ok _, w1) =>
      match ptwalk arg w1 with
      | (Ok _, w2, middle) =>
          let '(r, w3) := gdb_execute "maintenance packet Qqemu.PhyMemMode:0" w2 in
          invoke arg w
          = (r, w3,
             EvExecute "maintenance packet Qqemu.PhyMemMode:1"
             :: middle ++ [EvExecute "maintenance packet Qqemu.PhyMemMode:0"])
      | (Interrupt, w2, middle) =>
          invoke arg w
          = (Interrupt, w2, EvExecute "maintenance packet Qqemu.PhyMemMode:1" :: middle)
      | (Raise _, _, _) => False
      end
  | (Raise e, w1) =>
      invoke arg w = (Raise e, w1, [EvExecute "maintenance packet Qqemu.PhyMemMode:1"])
  | (Interrupt, w1) =>
      invoke arg w = (Interrupt, w1, [EvExecute "maintenance packet Qqemu.PhyMemMode:1"])
  end.
Proof.
  unfold invoke, bind, execute.
  destruct (gdb_execute "maintenance packet Qqemu.PhyMemMode:1" w) as [[[] | e | ] w1];
    [ | reflexivity | reflexivity].
  destruct (ptwalk_result arg w1) as (r & w2 & middle & -> & [-> | ->] & _).
  - destruct (gdb_execute "maintenance packet Qqemu.PhyMemMode:0" w2) as [r w3].
    reflexivity.
  - reflexivity.
Qed.

(** *** Addresses of one page *)

(** X14. Two arguments whose addresses lie in the same 4 KiB page (they
    agree above bit 11) give, from the same session, the same calls and the
    same records: the same result and final session, the same register and
    memory reads, the same entry records.  They end with the same complaint,
    or with physical addresses of pages of the same size that differ exactly
    as the virtual addresses do. *)
Theorem same_page_same_walk arg1 arg2 a1 a2 vaddr1 vaddr2 (w : World) :
  gdb_string_to_argv arg1 = [a1] ->
  PyInt.int0 sys_int_max_str_digits a1 = Some vaddr1 ->
  gdb_string_to_argv arg2 = [a2] ->
  PyInt.int0 sys_int_max_str_digits a2 = Some vaddr2 ->
  Z.shiftr vaddr1 12 = Z.shiftr vaddr2 12 ->
  fst (ptwalk arg1 w) = fst (ptwalk arg2 w)
  /\ register_reads (snd (ptwalk arg1 w)) = register_reads (snd (ptwalk arg2 w))
  /\ memory_reads (snd (ptwalk arg1 w)) = memory_reads (snd (ptwalk arg2 w))
  /\ trace (snd (ptwalk arg1 w)) = trace (snd (ptwalk arg2 w))
  /\ match outcome_of (snd (ptwalk arg1 w)), outcome_of (snd (ptwalk arg2 w)) with
     | Some (Translated p1 size1), Some (Translated p2 size2) =>
         size1 = size2 /\ p2 - p1 = vaddr2 - vaddr1
     | o1, o2 => o1 = o2
     end.
Proof.
  intros Hargv1 Hint1 Hargv2 Hint2 Hpage.
  pose proof (same_page_shift vaddr1 vaddr2 39 ltac:(lia) Hpage) as E39.
  pose proof (same_page_shift vaddr1 vaddr2 30 ltac:(lia) Hpage) as E30.
  pose proof (same_page_shift vaddr1 vaddr2 21 ltac:(lia) Hpage) as E21.
  pose proof (same_page_offset vaddr1 vaddr2 12 ltac:(lia) Hpage) as O12.
  pose proof (same_page_offset vaddr1 vaddr2 21 ltac:(lia) Hpage) as O21.
  pose proof (same_page_offset vaddr1 vaddr2 30 ltac:(lia) Hpage) as O30.
  change (2 ^ 12 - 1) with 0xFFF in O12. change (2 ^ 21 - 1) with 0x1FFFFF in O21.
  change (2 ^ 30 - 1) with 0x3FFFFFFF in O30.
  unfold ptwalk. rewrite Hargv1, Hint1, Hargv2, Hint2.
  unfold pml4_entry_addr, pdpt_entry_addr, pd_entry_addr, pt_entry_addr,
    pml4_index, pdpt_index, pd_index, pt_index.
  rewrite E39, E30, E21, Hpage.
  cases; cbn [fst snd app register_reads memory_reads trace outcome_of outcome_from];
    repeat split;
    unfold phys_addr_1gb, phys_addr_2mb, phys_addr_4kb, page_offset; lia.
Qed.

(** *** Numbers printed and read back *)

(** X15. Every number in the form in which the command prints numbers, that
    of [hex], is an argument that the command accepts, and it denotes the
    same number, be it zero, positive or negative: the argument is not
    refused, the register is read, and when that read succeeds the lines
    that follow show this number and its fields, and the PML4 entry is read
    at the address computed from it. *)
Theorem printed_number_accepted arg n (w : World) :
  gdb_string_to_argv arg = [hex n] ->
  PyInt.int0 sys_int_max_str_digits (hex n) = Some n
  /\ ~ In (EvPrint InvalidAddress) (snd (ptwalk arg w))
  /\ register_reads (snd (ptwalk arg w)) = ["$cr3"%string]
  /\ (forall cr3_val w1,
        gdb_parse_and_eval_int "$cr3" w = (Ok cr3_val, w1) ->
        exists rest,
          snd (ptwalk arg w)
          = preamble n cr3_val
            ++ EvReadMemory (pml4_entry_addr cr3_val n) entry_size :: rest).
Proof.
  intros Hargv.
  pose proof (HexFacts.hex_reads_back sys_int_max_str_digits n) as Hint.
  split; [exact Hint | ].
  now apply parsed_address_walked with (hex n).
Qed.

(** *** Leading zeros *)

(** X16. An argument that starts with 0 followed by a decimal digit (the old
    notation of octal numbers, as in 0777) is accepted only when it denotes
    zero: otherwise the command prints that the address is invalid and calls
    nothing.  It is never read as an octal or as a decimal number other than
    zero. *)
Theorem leading_zero_only_zero arg c t (w : World) :
  gdb_string_to_argv arg = [String "0" (String c t)] ->
  Literal.is_digit Literal.Decimal c = true ->
  PyInt.int0 sys_int_max_str_digits (String "0" (String c t)) = Some 0
  \/ ptwalk arg w = (Ok tt, w, [EvPrint InvalidAddress]).
Proof.
  intros Hargv Hc.
  destruct (PyInt.int0 sys_int_max_str_digits (String "0" (String c t)))
    as [z | ] eqn:Hint.
  - left. f_equal. revert Hint. unfold PyInt.int0.
    assert (Hascii : (N_of_ascii c <? 127)%N = true).
    { clear - Hc. destruct c as [[] [] [] [] [] [] [] []];
        try discriminate Hc; reflexivity. }
    destruct (PyIntFacts.transform_head2 "0" c t eq_refl Hascii) as [t' ->].
    unfold PyInt.PyLong_FromString.
    cbn [PyInt.skip_spaces]. change (PyInt.Py_ISSPACE "0") with false. cbn iota.
    cbn [PyInt.split_sign]. change (Ascii.eqb "0" "+") with false.
    change (Ascii.eqb "0" "-") with false. cbn iota.
    unfold PyInt.unsigned. cbn [PyInt.detect_base].
    change (Ascii.eqb "0" "0") with true. cbn iota.
    assert (Hprefix : PyInt.is_one_of c "x" "X" = false
                      /\ PyInt.is_one_of c "o" "O" = false
                      /\ PyInt.is_one_of c "b" "B" = false).
    { clear - Hc. destruct c as [[] [] [] [] [] [] [] []];
        try discriminate Hc; repeat split. }
    destruct Hprefix as (-> & -> & ->).
    destruct (PyInt.convert_digits sys_int_max_str_digits 10 true
                (PyInt.strip_prefix 10 (String "0" (String c t')))) as [z' | ] eqn:Hconv;
      [ | discriminate].
    intros Hz. injection Hz as <-.
    apply (PyIntFacts.finished_number _ Literal.Decimal) in Hconv.
    destruct Hconv as (body & post & _ & _ & _ & _ & _ & Hzero).
    rewrite (Hzero eq_refl). reflexivity.
  - right. unfold ptwalk. now rewrite Hargv, Hint.
Qed.

End Walk.

(** ** Addresses that differ above bit 47 *)

Section Alike.

Context {World : Type} {gdb : Gdb World}.

Lemma alike_refl {A} (m : @M World A) : alike m m.
Proof. intros w. split; reflexivity. Qed.

Lemma alike_bind {A B} (m1 m2 : @M World A) (f1 f2 : A -> @M World B) :
  alike m1 m2 -> (forall a, alike (f1 a) (f2 a)) -> alike (bind m1 f1) (bind m2 f2).
Proof.
  intros Hm Hf w. unfold bind.
  destruct (Hm w) as [Hr He].
  destruct (m1 w) as [[r1 w1] evs1], (m2 w) as [[r2 w2] evs2].
  cbn [fst snd] in Hr, He. injection Hr as -> ->.
  destruct r2 as [a | e | ];
    [ | split; [reflexivity | exact He] | split; [reflexivity | exact He] ].
  destruct (Hf a w2) as [Hr' He'].
  destruct (f1 a w2) as [[r1' w1'] evs1'], (f2 a w2) as [[r2' w2'] evs2'].
  cbn [fst snd] in *. injection Hr' as -> ->.
  split; [reflexivity | ].
  unfold without_echo in *. now rewrite !filter_app, He, He'.
Qed.

Lemma alike_echo vaddr1 vaddr2 :
  alike (World := World) (print (VirtualAddressIs vaddr1)) (print (VirtualAddressIs vaddr2)).
Proof. intros w. split; reflexivity. Qed.

Lemma low_bits_agree v1 v2 n i :
  0 <= n -> Z.land v1 (Z.ones n) = Z.land v2 (Z.ones n) ->
  0 <= i < n -> Z.testbit v1 i = Z.testbit v2 i.
Proof.
  intros Hn H Hi.
  assert (Hb : Z.testbit (Z.land v1 (Z.ones n)) i = Z.testbit (Z.land v2 (Z.ones n)) i)
    by now rewrite H.
  rewrite !Z.land_spec, Z.ones_spec_low in Hb by lia.
  now rewrite !andb_true_r in Hb.
Qed.

Lemma field_agrees v1 v2 k n :
  0 <= k -> 0 <= n -> k + n <= 48 ->
  Z.land v1 (Z.ones 48) = Z.land v2 (Z.ones 48) ->
  Z.land (Z.shiftr v1 k) (Z.ones n) = Z.land (Z.shiftr v2 k) (Z.ones n).
Proof.
  intros Hk Hn Hkn H. apply Z.bits_inj'. intros i Hi.
  rewrite !Z.land_spec, !Z.shiftr_spec, Z.testbit_ones_nonneg by lia.
  destruct (Z.ltb_spec i n); [ | now rewrite !andb_false_r].
  f_equal. apply (low_bits_agree v1 v2 48); [lia | exact H | lia].
Qed.

Lemma observations_without_echo evs :
  indices (without_echo evs) = indices evs
  /\ register_reads (without_echo evs) = register_reads evs
  /\ memory_reads (without_echo evs) = memory_reads evs
  /\ trace (without_echo evs) = trace evs
  /\ forall size, outcome_from size (without_echo evs) = outcome_from size evs.
Proof.
  unfold without_echo.
  induction evs as [ | ev evs (IHi & IHr & IHm & IHt & IHo)].
  - repeat split.
  - destruct ev as [ | | | []]; cbn;
      rewrite ?IHi, ?IHr, ?IHm, ?IHt; repeat split; intros; now rewrite ?IHo.
Qed.

(** C9. Two arguments whose addresses agree on bits 47:0 give, from the same
    session, the same run: the same result and final session, the same
    events (every call and every line, in order) but for the line echoing
    the address, hence the same indices, the same register and memory reads,
    the same entry records and the same physical address or complaint.  No
    address is rejected for its bits 63:48. *)
Theorem high_bits_ignored arg1 arg2 a1 a2 vaddr1 vaddr2 (w : World) :
  gdb_string_to_argv arg1 = [a1] ->
  PyInt.int0 sys_int_max_str_digits a1 = Some vaddr1 ->
  gdb_string_to_argv arg2 = [a2] ->
  PyInt.int0 sys_int_max_str_digits a2 = Some vaddr2 ->
  Z.land vaddr1 (2 ^ 48 - 1) = Z.land vaddr2 (2 ^ 48 - 1) ->
  fst (ptwalk arg1 w) = fst (ptwalk arg2 w)
  /\ without_echo (snd (ptwalk arg1 w)) = without_echo (snd (ptwalk arg2 w))
  /\ indices (snd (ptwalk arg1 w)) = indices (snd (ptwalk arg2 w))
  /\ register_reads (snd (ptwalk arg1 w)) = register_reads (snd (ptwalk arg2 w))
  /\ memory_reads (snd (ptwalk arg1 w)) = memory_reads (snd (ptwalk arg2 w))
  /\ trace (snd (ptwalk arg1 w)) = trace (snd (ptwalk arg2 w))
  /\ outcome_of (snd (ptwalk arg1 w)) = outcome_of (snd (ptwalk arg2 w)).
Proof.
  intros Hargv1 Hint1 Hargv2 Hint2 Hlow.
  change (2 ^ 48 - 1) with (Z.ones 48) in Hlow.
  assert (Halike : alike (ptwalk arg1) (ptwalk arg2)).
  { unfold ptwalk. rewrite Hargv1, Hint1, Hargv2, Hint2.
    apply alike_bind; [apply alike_refl | intros [cr3_val | ]; [ | apply alike_refl]].
    apply alike_bind; [apply alike_refl | intros _].
    apply alike_bind; [apply alike_echo | intros _].
    unfold pdpt_entry_addr, pd_entry_addr, pt_entry_addr, pml4_entry_addr,
      phys_addr_1gb, phys_addr_2mb, phys_addr_4kb,
      pml4_index, pdpt_index, pd_index, pt_index, page_offset.
    change 0x1FF with (Z.ones 9). change 0xFFF with (Z.ones 12).
    change 0x3FFFFFFF with (Z.ones 30). change 0x1FFFFF with (Z.ones 21).
    rewrite (field_agrees vaddr1 vaddr2 39 9), (field_agrees vaddr1 vaddr2 30 9),
      (field_agrees vaddr1 vaddr2 21 9), (field_agrees vaddr1 vaddr2 12 9)
      by (lia || exact Hlow).
    rewrite <- (Z.shiftr_0_r vaddr1), <- (Z.shiftr_0_r vaddr2).
    rewrite (field_agrees vaddr1 vaddr2 0 12), (field_agrees vaddr1 vaddr2 0 30),
      (field_agrees vaddr1 vaddr2 0 21) by (lia || exact Hlow).
    apply alike_refl. }
  destruct (Halike w) as [Hfst Hevs].
  destruct (observations_without_echo (snd (ptwalk arg1 w))) as (<- & <- & <- & <- & Ho1).
  destruct (observations_without_echo (snd (ptwalk arg2 w))) as (<- & <- & <- & <- & Ho2).
  unfold outcome_of. rewrite <- Ho1, <- Ho2, Hevs. repeat split; assumption.
Qed.

End Alike.

(** ** Runs on concrete machines *)

Module Runs.

Import Machine.
Local Open Scope string_scope.

Ltac entry := eexists; split; vm_compute; reflexivity.
Ltac beginning := eexists; repeat split; vm_compute; reflexivity.

Lemma full_walk_4kb_witness :
  exists evs,
    ptwalk (gdb := session small_pages) "0x7FFFFFFFF123" 0%nat = (Ok tt, 5%nat, evs)
    /\ List.length (memory_reads evs) = 4%nat
    /\ List.length (trace evs) = 4%nat
    /\ outcome_of evs = Some (Translated 0x5123 Page4KB).
Proof.
  destruct (full_walk_4kb (gdb := session small_pages) "0x7FFFFFFFF123" 0%nat
              0x7FFFFFFFF123 0x1000 1%nat 0x2003 2%nat 0x3003 3%nat 0x4003 4%nat
              0x8000000000005003 5%nat)
    as (evs & Hrun & Hreads & Htrace & Hout & _);
    [ beginning | entry | reflexivity | entry | reflexivity | reflexivity
    | entry | reflexivity | reflexivity | entry | reflexivity | ].
  exists evs. rewrite Hreads, Htrace, Hout. repeat split. exact Hrun.
Defined.

Lemma huge_page_1gb_witness :
  exists evs,
    ptwalk (gdb := session page_1gb) "0x7FFFFFFFF123" 0%nat = (Ok tt, 3%nat, evs)
    /\ outcome_of evs = Some (Translated 0x7FFFF123 Page1GB)
    /\ List.length (memory_reads evs) = 2%nat.
Proof.
  destruct (huge_page_1gb (gdb := session page_1gb) "0x7FFFFFFFF123" 0%nat
              0x7FFFFFFFF123 0x1000 1%nat 0x2003 2%nat 0x40000083 3%nat)
    as (evs & Hrun & Hout & Hreads & _);
    [ beginning | entry | reflexivity | entry | reflexivity | reflexivity | ].
  exists evs. rewrite Hreads, Hout. repeat split. exact Hrun.
Defined.

Lemma absent_entry_aborts_witness :
  exists evs,
    ptwalk (gdb := session absent_pd) "0x7FFFFFFFF123" 0%nat = (Ok tt, 4%nat, evs)
    /\ outcome_of evs = Some (AbsentAt PD)
    /\ List.length (trace evs) = 3%nat
    /\ List.length (memory_reads evs) = 3%nat.
Proof.
  destruct (absent_entry_aborts (gdb := session absent_pd) "0x7FFFFFFFF123" 0%nat
              0x7FFFFFFFF123 0x1000 1%nat PD (pd_entry_addr 0x3003 0x7FFFFFFFF123)
              3%nat (([] ++ [(PML4, pml4_entry_addr 0x1000 0x7FFFFFFFF123, 0x2003)])
                     ++ [(PDPT, pdpt_entry_addr 0x2003 0x7FFFFFFFF123, 0x3003)])
              0x4002 4%nat)
    as (evs & Hrun & Hout & Htrace & _ & _ & Hreads & _).
  - beginning.
  - apply (arrives_PD _ _ _ _ 2%nat _ _ _);
      [ apply (arrives_PDPT _ _ _ _ 1%nat _ _ _); [apply arrives_PML4 | entry | reflexivity]
      | entry | reflexivity | reflexivity ].
  - entry.
  - reflexivity.
  - exists evs. rewrite Htrace, Hout, Hreads. repeat split. exact Hrun.
Defined.


Lemma high_bits_ignored_witness :
  outcome_of (snd (ptwalk (gdb := session small_pages) "0xFFFF7FFFFFFFF123" 0%nat))
  = outcome_of (snd (ptwalk (gdb := session small_pages) "0x7FFFFFFFF123" 0%nat)).
Proof.
  apply (high_bits_ignored (gdb := session small_pages)
           "0xFFFF7FFFFFFFF123" "0x7FFFFFFFF123" "0xFFFF7FFFFFFFF123" "0x7FFFFFFFF123"
           0xFFFF7FFFFFFFF123 0x7FFFFFFFF123 0%nat); vm_compute; reflexivity.
Defined.

Lemma out_of_range_address_walked_witness :
  ~ In (EvPrint InvalidAddress) (snd (ptwalk (gdb := session edge_pages) "-5" 0%nat))
  /\ register_reads (snd (ptwalk (gdb := session edge_pages) "-5" 0%nat)) = ["$cr3"]
  /\ memory_reads (snd (ptwalk (gdb := session edge_pages) "-5" 0%nat))
     = [0x1FF8; 0x2FF8; 0x3FF8; 0x4FF8]
  /\ outcome_of (snd (ptwalk (gdb := session edge_pages) "-5" 0%nat))
     = Some (Translated 0x5FFB Page4KB).
Proof.
  destruct (out_of_range_address_walked (gdb := session edge_pages) "-5" "-5" (-5) 0%nat)
    as (Hvalid & Hreg & Hwalk); [ reflexivity | reflexivity | lia | ].
  destruct (Hwalk 0x1000 1%nat eq_refl) as (_ & Hlevels).
  destruct (Hlevels PT (pt_entry_addr 0x4003 (-5)) 4%nat
              ((([] ++ [(PML4, pml4_entry_addr 0x1000 (-5), 0x2003)])
                ++ [(PDPT, pdpt_entry_addr 0x2003 (-5), 0x3003)])
               ++ [(PD, pd_entry_addr 0x3003 (-5), 0x4003)])%list)
    as (_ & _ & _ & _ & _ & Hpage).
  - apply (arrives_PT _ _ _ _ 3%nat _ _ _);
      [ apply (arrives_PD _ _ _ _ 2%nat _ _ _);
        [ apply (arrives_PDPT _ _ _ _ 1%nat _ _ _);
          [apply arrives_PML4 | entry | reflexivity]
        | entry | reflexivity | reflexivity ]
      | entry | reflexivity | reflexivity ].
  - split; [exact Hvalid | split; [exact Hreg | ]].
    rewrite (Hpage 0x5003 5%nat ltac:(entry) eq_refl eq_refl).
    split; reflexivity.
Defined.

Lemma invalid_address_iff_no_literal_witness :
  ptwalk (gdb := session small_pages) "not_a_number" 0%nat
  = (Ok tt, 0%nat, [EvPrint InvalidAddress]).
Proof.
  destruct (invalid_address_iff_no_literal (gdb := session small_pages)
              "not_a_number" "not_a_number" 0%nat) as [_ Hno]; [reflexivity | ].
  apply Hno. intros Hlit. apply PyIntFacts.int0_accepts in Hlit.
  destruct Hlit as [vaddr Hint]. vm_compute in Hint. discriminate Hint.
Defined.

(** C7. The text 0b101 is neither a hexadecimal nor a decimal literal, and
    it is accepted: the register is read, the number 5 is walked, and the
    complaint, that the PML4 entry cannot be read, is not about the argument. *)
Lemma binary_text_is_walked :
  ~ Literal.literal Literal.Hexadecimal "0b101"
  /\ ~ Literal.literal Literal.Decimal "0b101"
  /\ PyInt.int0 4300 "0b101" = Some 5
  /\ ~ In (EvPrint InvalidAddress) (walk_events small_pages "0b101")
  /\ register_reads (walk_events small_pages "0b101") = ["$cr3"]
  /\ memory_reads (walk_events small_pages "0b101") = [0x1000]
  /\ outcome_of (walk_events small_pages "0b101") = Some (ReadFailedAt 0x1000).
Proof.
  split; [ | split].
  - intros H. apply PyIntFacts.literal_base in H. vm_compute in H. discriminate H.
  - intros H. apply PyIntFacts.literal_base in H. vm_compute in H. discriminate H.
  - repeat split. vm_compute. intuition discriminate.
Qed.

(** The argument 2^64 is walked as well: as the address 0. *)
Example out_of_range_address_walked_2_64 :
  outcome_of (walk_events small_pages "18446744073709551616") = Some (ReadFailedAt 0x1000)
  /\ memory_reads (walk_events edge_pages "18446744073709551616")
     = [0x1000; 0x2000; 0x3000; 0x4000]
  /\ outcome_of (walk_events edge_pages "18446744073709551616")
     = Some (Translated 0x6000 Page4KB).
Proof. repeat split. Qed.

(** C1. The PT entry 0x1000000005003 (present, frame at 2^48 + 0x5000) ends
    a walk of four tables with the physical address 0x5123: the mask
    0xFFFFFFFFF000 of the script keeps bits 47:12 only, and bit 48 of the
    frame is lost.  The frame base of the entry, bits 51:12, gives
    0x1000000005123.  The script masks a 1 GiB frame up to bit 51. *)
Theorem frame_base_mask_stops_at_bit_47 :
  outcome_of (walk_events high_frame "0x7FFFFFFFF123") = Some (Translated 0x5123 Page4KB)
  /\ trace (walk_events high_frame "0x7FFFFFFFF123")
     = [ (PML4, 0x17F8, 0x2003); (PDPT, 0x2FF8, 0x3003); (PD, 0x3FF8, 0x4003);
         (PT, 0x4FF8, 0x1000000005003) ]
  /\ Z.land 0x1000000005003 (2 ^ 52 - 2 ^ 12) + Z.land 0x7FFFFFFFF123 (2 ^ 12 - 1)
     = 0x1000000005123
  /\ phys_addr_4kb 0x1000000005003 0x7FFFFFFFF123
     <> Z.land 0x1000000005003 (2 ^ 52 - 2 ^ 12) + Z.land 0x7FFFFFFFF123 (2 ^ 12 - 1)
  /\ (forall pt_entry vaddr,
        phys_addr_4kb pt_entry vaddr
        = Z.land pt_entry (2 ^ 48 - 2 ^ 12) + Z.land vaddr (2 ^ 12 - 1))
  /\ (forall pdpt_entry vaddr,
        phys_addr_1gb pdpt_entry vaddr
        = Z.land pdpt_entry (2 ^ 52 - 2 ^ 30) + Z.land vaddr (2 ^ 30 - 1)).
Proof. repeat split. discriminate. Qed.

(** C8. On the machine with the four tables the user interrupts GDB while
    the command reads the PML4 entry, its third call.  The interrupt is no
    [Exception]: it leaves the read, the walk and the command.  The packet
    that enables the physical memory mode was sent; the packet that reverts
    it is not sent, and the session stays in physical memory mode.  Without
    the interrupt both packets are sent. *)
Theorem interrupt_leaves_physical_mode_on :
  invoke (gdb := interrupted 2 small_pages) "0x7FFFFFFFF123" 0%nat
  = (Interrupt, 3%nat,
     EvExecute "maintenance packet Qqemu.PhyMemMode:1"
     :: preamble 0x7FFFFFFFF123 0x1000 ++ [EvReadMemory 0x17F8 8])
  /\ filter is_execute
       (snd (invoke (gdb := interrupted 2 small_pages) "0x7FFFFFFFF123" 0%nat))
     = [EvExecute "maintenance packet Qqemu.PhyMemMode:1"]
  /\ ~ In (EvExecute "maintenance packet Qqemu.PhyMemMode:0")
         (snd (invoke (gdb := interrupted 2 small_pages) "0x7FFFFFFFF123" 0%nat))
  /\ filter is_execute (events small_pages "0x7FFFFFFFF123")
     = [ EvExecute "maintenance packet Qqemu.PhyMemMode:1";
         EvExecute "maintenance packet Qqemu.PhyMemMode:0" ].
Proof.
  split; [reflexivity | split; [reflexivity | split; [ | reflexivity]]].
  vm_compute. intuition discriminate.
Qed.

(** C3. The PD entry 0x1000000600083 (present, bit 7 set, frame at
    2^48 + 0x600000) gives the physical address 0x7FF123: the mask
    0xFFFFFFE00000 keeps bits 47:21 only, and bit 48 of the entry is lost.
    Masking to bits 51:21 gives 0x10000007FF123. *)
Theorem page_2mb_mask_stops_at_bit_47 :
  outcome_of (walk_events high_2mb "0x7FFFFFFFF123") = Some (Translated 0x7FF123 Page2MB)
  /\ Z.land 0x1000000600083 (2 ^ 52 - 2 ^ 21) + Z.land 0x7FFFFFFFF123 0x1FFFFF
     = 0x10000007FF123
  /\ phys_addr_2mb 0x1000000600083 0x7FFFFFFFF123
     <> Z.land 0x1000000600083 (2 ^ 52 - 2 ^ 21) + Z.land 0x7FFFFFFFF123 0x1FFFFF
  /\ memory_reads (walk_events high_2mb "0x7FFFFFFFF123") = [0x17F8; 0x2FF8; 0x3FF8]
  /\ forall pd_entry vaddr,
       phys_addr_2mb pd_entry vaddr
       = Z.land pd_entry (2 ^ 48 - 2 ^ 21) + Z.land vaddr 0x1FFFFF.
Proof. repeat split. discriminate. Qed.

(** C4. The PML4 entry 0x1000000002003 points to a PDPT at 2^48 + 0x2000;
    the script takes 0x2000 for its base and reads the PDPT entry at 0x2FF8
    instead of 0x1000000002FF8: the mask 0xFFFFFFFFF000 keeps bits 47:12
    only.  The same mask is applied to the register, so that a table base of
    0x1000000001000 in CR3 becomes 0x1000. *)
Theorem table_base_mask_stops_at_bit_47 :
  memory_reads (walk_events high_table "0x7FFFFFFFF123") = [0x17F8; 0x2FF8]
  /\ outcome_of (walk_events high_table "0x7FFFFFFFF123") = Some (ReadFailedAt 0x2FF8)
  /\ Z.land 0x1000000002003 (2 ^ 52 - 2 ^ 12) + pdpt_index 0x7FFFFFFFF123 * entry_size
     = 0x1000000002FF8
  /\ pdpt_entry_addr 0x1000000002003 0x7FFFFFFFF123
     <> Z.land 0x1000000002003 (2 ^ 52 - 2 ^ 12) + pdpt_index 0x7FFFFFFFF123 * entry_size
  /\ pml4_base 0x1000000001000 = 0x1000
  /\ Z.land 0x1000000001000 (2 ^ 52 - 2 ^ 12) = 0x1000000001000
  /\ forall v,
       pml4_base v = Z.land v (2 ^ 48 - 2 ^ 12)
       /\ pdpt_base v = Z.land v (2 ^ 48 - 2 ^ 12)
       /\ pd_base v = Z.land v (2 ^ 48 - 2 ^ 12)
       /\ pt_base v = Z.land v (2 ^ 48 - 2 ^ 12).
Proof. repeat split. discriminate. Qed.

(** X20. Texts beyond ASCII, on an interpreter with the character database
    of Unicode 14.0.  These are accepted: 5 after a no-break space (U+00A0);
    12 in full-width digits (U+FF11, U+FF12); 0x7FFF with a full-width zero
    and a full-width seven; the Arabic-Indic digit three (U+0663); 5 before
    an ideographic space (U+3000).  The address 0x7FFFFFFFF123 written with
    a full-width zero is walked as that address.  These are refused as
    invalid addresses: a letter with an accent (U+00E9), and a hexadecimal
    number whose x is full-width (U+FF58). *)
Theorem unicode_digits_and_spaces :
  PyInt.int0 4300 (text [194; 160; 53]) = Some 5
  /\ PyInt.int0 4300 (text [239; 188; 145; 239; 188; 146]) = Some 12
  /\ PyInt.int0 4300 (text [239; 188; 144; 120; 239; 188; 151; 70; 70; 70]) = Some 0x7FFF
  /\ PyInt.int0 4300 (text [217; 163]) = Some 3
  /\ PyInt.int0 4300 (text [53; 227; 128; 128]) = Some 5
  /\ walk_events small_pages (text [239; 188; 144] ++ "x7FFFFFFFF123")
     = walk_events small_pages "0x7FFFFFFFF123"
  /\ outcome_of (walk_events small_pages (text [239; 188; 144] ++ "x7FFFFFFFF123"))
     = Some (Translated 0x5123 Page4KB)
  /\ walk_events small_pages (text [195; 169]) = [EvPrint InvalidAddress]
  /\ walk_events small_pages (text [48; 239; 189; 152; 49]) = [EvPrint InvalidAddress].
Proof. repeat split. Qed.

(** On a target that refuses the packet nothing is read and nothing reverted. *)
Example physical_mode_refused_run :
  invoke (gdb := session not_remote) "0x7FFFFFFFF123" 0%nat
  = (Raise "not a remote target", 1%nat, [EvExecute "maintenance packet Qqemu.PhyMemMode:1"]).
Proof. reflexivity. Qed.

End Runs.

(** ** More runs on concrete machines *)

Module MoreRuns.

Import Machine.
Local Open Scope string_scope.

Ltac entry := eexists; split; vm_compute; reflexivity.
Ltac beginning := eexists; repeat split; vm_compute; reflexivity.

Lemma wrong_argument_count_witness :
  ptwalk (gdb := session small_pages) "0x1000 0x2000" 0%nat = (Ok tt, 0%nat, [EvPrint Usage]).
Proof.
  apply (wrong_argument_count (gdb := session small_pages) "0x1000 0x2000" 0%nat).
  vm_compute. discriminate.
Defined.

Lemma register_failure_witness :
  ptwalk (gdb := session no_register) "0x7FFFFFFFF123" 0%nat
  = (Ok tt, 1%nat, [EvParseAndEval "$cr3"; EvPrint (ErrorReadingCR3 "No registers.")]).
Proof.
  apply (register_failure (gdb := session no_register) "0x7FFFFFFFF123" "0x7FFFFFFFF123"
           0x7FFFFFFFF123 0%nat "No registers." 1%nat); reflexivity.
Defined.

Lemma read_failure_aborts_witness :
  exists evs,
    ptwalk (gdb := session high_table) "0x7FFFFFFFF123" 0%nat = (Ok tt, 3%nat, evs)
    /\ outcome_of evs = Some (ReadFailedAt 0x2FF8)
    /\ List.length (trace evs) = 1%nat
    /\ List.length (memory_reads evs) = 2%nat.
Proof.
  destruct (read_failure_aborts (gdb := session high_table) "0x7FFFFFFFF123" 0%nat
              0x7FFFFFFFF123 0x1000 1%nat PDPT
              (pdpt_entry_addr 0x1000000002003 0x7FFFFFFFF123) 2%nat
              ([] ++ [(PML4, pml4_entry_addr 0x1000 0x7FFFFFFFF123, 0x1000000002003)])
              "Cannot access memory" 3%nat)
    as (evs & Hrun & Hout & Htrace & _ & Hreads & _).
  - beginning.
  - apply (arrives_PDPT _ _ _ _ 1%nat _ _ _); [apply arrives_PML4 | entry | reflexivity].
  - reflexivity.
  - exists evs. rewrite Htrace, Hout, Hreads. repeat split. exact Hrun.
Defined.

Lemma interrupt_skips_revert_witness :
  invoke (gdb := interrupted 1 small_pages) "0x7FFFFFFFF123" 0%nat
  = (Interrupt, 2%nat,
     [EvExecute "maintenance packet Qqemu.PhyMemMode:1"; EvParseAndEval "$cr3"]).
Proof.
  destruct (interrupt_skips_revert (gdb := interrupted 1 small_pages)
              "0x7FFFFFFFF123" 0%nat 1%nat 2%nat [EvParseAndEval "$cr3"]
              eq_refl eq_refl) as [Hrun _].
  exact Hrun.
Defined.

Lemma huge_page_2mb_witness :
  exists evs,
    ptwalk (gdb := session page_2mb) "0x7FFFFFFFF123" 0%nat = (Ok tt, 4%nat, evs)
    /\ outcome_of evs = Some (Translated 0x7FF123 Page2MB)
    /\ List.length (memory_reads evs) = 3%nat.
Proof.
  destruct (huge_page_2mb (gdb := session page_2mb) "0x7FFFFFFFF123" 0%nat
              0x7FFFFFFFF123 0x1000 1%nat 0x2003 2%nat 0x3003 3%nat 0x600083 4%nat)
    as (evs & Hrun & Hout & Hreads & _);
    [ beginning | entry | reflexivity | entry | reflexivity | reflexivity
    | entry | reflexivity | reflexivity | ].
  exists evs. rewrite Hreads, Hout. repeat split. exact Hrun.
Defined.

Lemma translation_keeps_offset_witness :
  0x5123 mod 2 ^ 12 = 0x7FFFFFFFF123 mod 2 ^ 12 /\ 0 <= 0x5123 < 2 ^ 52.
Proof.
  exact (translation_keeps_offset (gdb := session small_pages) "0x7FFFFFFFF123"
           "0x7FFFFFFFF123" 0x7FFFFFFFF123 0%nat 0x5123 Page4KB
           eq_refl eq_refl eq_refl).
Defined.

Lemma entry_is_little_endian_witness :
  Z.testbit (int_from_bytes_little [x83; x00; x60; x00; x00; x00; x00; x00]) 21 = true
  /\ 0 <= int_from_bytes_little [x83; x00; x60; x00; x00; x00; x00; x00] < 2 ^ 64.
Proof.
  destruct (entry_is_little_endian [x83; x00; x60; x00; x00; x00; x00; x00] 2 5)
    as (Hbit & Hrange & _); [cbn; lia | lia | ].
  split; [exact Hbit | exact Hrange].
Defined.

Lemma masks_keep_values_below_bit_48_witness :
  page_base 0x8000000000005003 = Z.land 0x8000000000005003 (2 ^ 52 - 2 ^ 12).
Proof.
  destruct (masks_keep_values_below_bit_48 0x8000000000005003)
    as (_ & _ & _ & _ & Hbase & _); [reflexivity | ].
  exact Hbase.
Defined.

Lemma same_page_same_walk_witness :
  memory_reads (snd (ptwalk (gdb := session small_pages) "0x7FFFFFFFF123" 0%nat))
  = memory_reads (snd (ptwalk (gdb := session small_pages) "0x7FFFFFFFFabc" 0%nat)).
Proof.
  destruct (same_page_same_walk (gdb := session small_pages)
              "0x7FFFFFFFF123" "0x7FFFFFFFFabc" "0x7FFFFFFFF123" "0x7FFFFFFFFabc"
              0x7FFFFFFFF123 0x7FFFFFFFFabc 0%nat) as (_ & _ & Hreads & _);
    [ reflexivity | reflexivity | reflexivity | reflexivity | reflexivity | ].
  exact Hreads.
Defined.

Lemma printed_number_accepted_witness :
  register_reads (snd (ptwalk (gdb := session small_pages) (hex (-4096)) 0%nat)) = ["$cr3"].
Proof.
  destruct (printed_number_accepted (gdb := session small_pages)
              (hex (-4096)) (-4096) 0%nat) as (_ & _ & Hreg & _); [reflexivity | ].
  exact Hreg.
Defined.

Lemma leading_zero_only_zero_witness :
  ptwalk (gdb := session small_pages) "0777" 0%nat = (Ok tt, 0%nat, [EvPrint InvalidAddress]).
Proof.
  destruct (leading_zero_only_zero (gdb := session small_pages) "0777" "7" "77" 0%nat)
    as [Hzero | Hinvalid]; [reflexivity | reflexivity | | exact Hinvalid].
  vm_compute in Hzero. discriminate Hzero.
Defined.

(** What [hex] gives. *)
Example hex_examples :
  hex 0x7FFFFFFFF123 = "0x7ffffffff123" /\ hex 0 = "0x0" /\ hex (-4096) = "-0x1000".
Proof. repeat split. Qed.

End MoreRuns.
